(** * The control notebook [n09_control.ipynb]: linearisation and LQR gain

    The notebook is a straight-line sequence of cells.  Its own code only
    sequences calls into SymPy, NumPy, SciPy and PyDy.  This development
    embeds

    - the array algebra the notebook uses from NumPy ([zeros], [eye], [dot],
      [inv] and [.T]) as operations on MathComp matrices over a real field
      (floating-point rounding is not modelled);
    - Python dictionaries and objects as association lists with Python's
      update-in-place semantics;
    - the library routines whose code is not the notebook's
      ([to_linearizer], [linearize], [matrix2numpy], [controllable],
      [solve_continuous_are], [display_ipython]) as the fields of a record
      [Library] over which everything is parametrised;
    - every code statement of the notebook as a function from the
      interpreter's globals and the outside world to an exception or the
      next globals and world, and the notebook as the list of them. *)

Set Warnings "-notation-overridden,-ambiguous-paths,-rewrite-rw".
Set Warnings "-notation-for-abbreviation".

From HB Require Import structures.
From mathcomp Require Import ssreflect ssrfun ssrbool eqtype ssrnat seq.
From mathcomp Require Import choice fintype bigop order.
From mathcomp Require Import ssralg ssrnum ssrint rat matrix ring_tactic.
From Stdlib Require Import String.

Set Implicit Arguments.
Unset Strict Implicit.
Unset Printing Implicit Defensive.

Import Order.TTheory GRing.Theory Num.Theory.
Local Open Scope ring_scope.

(** ** Python names and exceptions *)

HB.instance Definition _ := hasDecEq.Build string String.eqb_spec.

(** The exceptions a statement of the notebook can end with.  Library
    routines may raise any of them. *)
Inductive exn : Type :=
  | NameError of string
  | TypeError of string
  | AttributeError of string
  | ValueError of string
  | LinAlgError of string
  | LibraryError of string.

(** A computation that may raise. *)
Definition result (T : Type) : Type := (exn + T)%type.

Definition ret {T : Type} (x : T) : result T := inr x.
Definition raise {T : Type} (e : exn) : result T := inl e.

Definition bind {T U : Type} (c : result T) (k : T -> result U) : result U :=
  match c with
  | inl e => inl e
  | inr x => k x
  end.

Notation "'let!' x ':=' c 'in' k" := (bind c (fun x => k))
  (at level 10, x name, c at level 100, k at level 200).

(** Reading a global that may not be bound yet. *)
Definition lookup {T : Type} (name : string) (v : option T) : result T :=
  match v with
  | Some x => ret x
  | None => raise (NameError name)
  end.

(** ** Python dictionaries

    A [dict] keeps its keys in insertion order; assigning to a key that is
    already present replaces the value in place. *)
Section Dict.

Variables (K : eqType) (V : Type).

Definition dict : Type := seq (K * V).

Fixpoint dict_get (d : dict) (k : K) : option V :=
  match d with
  | [::] => None
  | (k', v) :: d' => if k' == k then Some v else dict_get d' k
  end.

Fixpoint dict_set (d : dict) (k : K) (v : V) : dict :=
  match d with
  | [::] => [:: (k, v)]
  | (k', v') :: d' =>
      if k' == k then (k', v) :: d' else (k', v') :: dict_set d' k v
  end.

(** [dict(pairs)]: the pairs are inserted from left to right. *)
Definition dict_of_pairs (ps : seq (K * V)) : dict :=
  foldl (fun d kv => dict_set d kv.1 kv.2) [::] ps.

End Dict.

(** ** Python objects

    An object is its attribute dictionary.  [obj.a = v] is [setattr];
    reading a missing attribute raises [AttributeError]. *)
Section Objects.

Variable V : Type.

Definition pyobj : Type := dict string V.

Definition getattr (o : pyobj) (a : string) : option V := dict_get o a.

Definition setattr (o : pyobj) (a : string) (v : V) : pyobj := dict_set o a v.

(** The object without one attribute. *)
Definition without (a : string) (o : pyobj) : pyobj :=
  [seq kv <- o | kv.1 != a].

End Objects.

(** ** NumPy

    Two-dimensional arrays are matrices over the field [F]; one-dimensional
    arrays are sequences. *)
Section Numpy.

Variable F : realFieldType.

Definition zeros (n : nat) : seq F := nseq n 0.

Definition eye (n : nat) : 'M[F]_n := 1%:M.

Definition dot {m n p : nat} (X : 'M[F]_(m, n)) (Y : 'M[F]_(n, p)) :
  'M[F]_(m, p) := X *m Y.

(** [X.T] *)
Definition transpose {m n : nat} (X : 'M[F]_(m, n)) : 'M[F]_(n, m) := X^T.

(** [numpy.linalg.inv] raises [LinAlgError] on a singular matrix. *)
Definition inv {n : nat} (X : 'M[F]_n) : result 'M[F]_n :=
  if X \in unitmx then ret (invmx X)
  else raise (LinAlgError "Singular matrix").

(** The expression of the notebook for the gain,
    [dot(dot(inv(R), B.T), S)]. *)
Definition gain_expr {n m : nat}
    (R : 'M[F]_m) (B : 'M[F]_(n, m)) (S : 'M[F]_n) : result 'M[F]_(m, n) :=
  let! Ri := inv R in
  ret (dot (dot Ri (transpose B)) S).

End Numpy.

(** ** Values, the outside world and the library *)
Section Values.

Variable F : realFieldType.

(** [sym]: SymPy symbols; [expr]: SymPy expressions; [opaque]: attribute
    values the notebook never looks into; [KanesMethod]: the object [kane]
    of the earlier notebooks. *)
Variables (sym : eqType) (expr opaque KanesMethod : Type).

(** What the notebook can display or pass to a function. *)
Inductive value : Type :=
  | VNone
  | VBool of bool
  | VStr of string
  | VFloat of F
  | VArray of seq F
  | VDict of dict sym F
  | VMatrix (m n : nat) of 'M[F]_(m, n)
  | VSymMatrix (m n : nat) of 'M[expr]_(m, n).

(** The attribute values of the two objects the notebook assigns to. *)
Inductive attr : Type :=
  | Symbols of seq sym
  | Trajectory of seq (seq F)
  | Opaque of opaque.

(** [A] and [B] are first bound to SymPy matrices and then rebound to
    NumPy arrays. *)
Inductive matval (m n : nat) : Type :=
  | Symbolic of 'M[expr]_(m, n)
  | Numeric of 'M[F]_(m, n).

(** What the session shows: the value of the last expression of a cell,
    the text printed by [help], or what a library call renders. *)
Inductive output : Type :=
  | Out of value
  | Help of string
  | Rendered of pyobj attr.

(** The world outside the interpreter's globals: the files on disk and what
    the session has displayed so far. *)
Record world : Type := World {
  files : dict string string;
  display : seq output
}.

Definition show (o : output) (w : world) : world :=
  World (files w) (rcons (display w) o).

(** A Python function value: positional and keyword arguments to a value
    or an exception. *)
Definition pyfun : Type := seq value -> seq (string * value) -> result value.

(** The library routines the notebook calls and does not define.  A method
    call returns the receiver as the call left it.  The shapes are the ones
    the literals [eye(6)] and [eye(3)] of the notebook fix.  [controllable]
    is handed whatever [A] and [B] hold.  [as_object] and [object_dot] are
    what NumPy's [dot] does when an argument is a SymPy matrix: the numbers
    of the other argument become objects, and the products and sums of the
    entries are SymPy's. *)
Record Library : Type := {
  to_linearizer : KanesMethod -> result (pyobj attr);
  linearize : pyobj attr -> seq (dict sym F) -> bool ->
      result (pyobj attr * ('M[expr]_6 * 'M[expr]_(6, 3)));
  matrix2numpy : forall m n : nat, 'M[expr]_(m, n) -> result 'M[F]_(m, n);
  controllable : matval 6 6 -> matval 6 3 -> result bool;
  solve_continuous_are :
      'M[F]_6 -> 'M[F]_(6, 3) -> 'M[F]_6 -> 'M[F]_3 -> result 'M[F]_6;
  display_ipython : pyobj attr -> world -> result (pyobj attr * world);
  as_object : F -> expr;
  object_dot : forall m n p : nat,
      'M[expr]_(m, n) -> 'M[expr]_(n, p) -> 'M[expr]_(m, p)
}.

End Values.

Arguments VNone {F sym expr}.
Arguments VBool {F sym expr} _.
Arguments VStr {F sym expr} _.
Arguments VFloat {F sym expr} _.
Arguments VArray {F sym expr} _.
Arguments VDict {F sym expr} _.
Arguments VMatrix {F sym expr m n} _.
Arguments VSymMatrix {F sym expr m n} _.
Arguments Out {F sym expr opaque} _.
Arguments Help {F sym expr opaque} _.
Arguments Rendered {F sym expr opaque} _.
Arguments Symbols {F sym opaque} _.
Arguments Trajectory {F sym opaque} _.
Arguments Opaque {F sym opaque} _.
Arguments Symbolic {F expr m n} _.
Arguments Numeric {F expr m n} _.

(** ** The interpreter's globals

    [scene] is bound by [from solution.visualization import *] and
    [parameter_dict] by the reader's answer to the first exercise (or not at
    all); the notebook binds the others.  An unbound name is [None]. *)
Module Globals.
Section Fields.

Variable F : realFieldType.
Variables (sym : eqType) (expr opaque : Type).

Record t : Type := Make {
  scene : pyobj (attr F sym opaque);
  parameter_dict : option (dict sym F);
  equilibrium_point : option (seq F);
  equilibrium_dict : option (dict sym F);
  linearizer : option (pyobj (attr F sym opaque));
  A : option (matval F expr 6 6);
  B : option (matval F expr 6 3);
  Q : option 'M[F]_6;
  R : option 'M[F]_3;
  S : option 'M[F]_6;
  K : option (matval F expr 3 6);
  controller : option (pyfun F sym expr)
}.

Definition with_scene (v : pyobj (attr F sym opaque)) (g : t) : t :=
  Make v (parameter_dict g) (equilibrium_point g) (equilibrium_dict g)
    (linearizer g) (A g) (B g) (Q g) (R g) (S g) (K g) (controller g) .

Definition with_parameter_dict (v : option (dict sym F)) (g : t) : t :=
  Make (scene g) v (equilibrium_point g) (equilibrium_dict g) (linearizer g)
    (A g) (B g) (Q g) (R g) (S g) (K g) (controller g) .

Definition with_equilibrium_point (v : option (seq F)) (g : t) : t :=
  Make (scene g) (parameter_dict g) v (equilibrium_dict g) (linearizer g)
    (A g) (B g) (Q g) (R g) (S g) (K g) (controller g) .

Definition with_equilibrium_dict (v : option (dict sym F)) (g : t) : t :=
  Make (scene g) (parameter_dict g) (equilibrium_point g) v (linearizer g)
    (A g) (B g) (Q g) (R g) (S g) (K g) (controller g) .

Definition with_linearizer (v : option (pyobj (attr F sym opaque)))
    (g : t) : t :=
  Make (scene g) (parameter_dict g) (equilibrium_point g)
    (equilibrium_dict g) v (A g) (B g) (Q g) (R g) (S g) (K g) (controller g)
    .

Definition with_A (v : option (matval F expr 6 6)) (g : t) : t :=
  Make (scene g) (parameter_dict g) (equilibrium_point g)
    (equilibrium_dict g) (linearizer g) v (B g) (Q g) (R g) (S g) (K g)
    (controller g) .

Definition with_B (v : option (matval F expr 6 3)) (g : t) : t :=
  Make (scene g) (parameter_dict g) (equilibrium_point g)
    (equilibrium_dict g) (linearizer g) (A g) v (Q g) (R g) (S g) (K g)
    (controller g) .

Definition with_Q (v : option 'M[F]_6) (g : t) : t :=
  Make (scene g) (parameter_dict g) (equilibrium_point g)
    (equilibrium_dict g) (linearizer g) (A g) (B g) v (R g) (S g) (K g)
    (controller g) .

Definition with_R (v : option 'M[F]_3) (g : t) : t :=
  Make (scene g) (parameter_dict g) (equilibrium_point g)
    (equilibrium_dict g) (linearizer g) (A g) (B g) (Q g) v (S g) (K g)
    (controller g) .

Definition with_S (v : option 'M[F]_6) (g : t) : t :=
  Make (scene g) (parameter_dict g) (equilibrium_point g)
    (equilibrium_dict g) (linearizer g) (A g) (B g) (Q g) (R g) v (K g)
    (controller g) .

Definition with_K (v : option (matval F expr 3 6)) (g : t) : t :=
  Make (scene g) (parameter_dict g) (equilibrium_point g)
    (equilibrium_dict g) (linearizer g) (A g) (B g) (Q g) (R g) (S g) v
    (controller g) .

Definition with_controller (v : option (pyfun F sym expr)) (g : t) : t :=
  Make (scene g) (parameter_dict g) (equilibrium_point g)
    (equilibrium_dict g) (linearizer g) (A g) (B g) (Q g) (R g) (S g) (K g)
    v.

End Fields.
End Globals.

(** ** The control problem, as the notebook's text states it *)
Section Control.

Variable F : realFieldType.
Variables n m : nat.

(** The right-hand side of the Riccati equation
    [0 = - S A - A^T S + S B R^-1 B^T S - Q]. *)
Definition riccati_rhs (A : 'M[F]_n) (B : 'M[F]_(n, m))
    (Q : 'M[F]_n) (R : 'M[F]_m) (S : 'M[F]_n) : 'M[F]_n :=
  - (S *m A) - A^T *m S + S *m B *m invmx R *m B^T *m S - Q.

Definition solves_riccati (A : 'M[F]_n) (B : 'M[F]_(n, m))
    (Q : 'M[F]_n) (R : 'M[F]_m) (S : 'M[F]_n) : Prop :=
  0 = riccati_rhs A B Q R S.

(** The gain [K = R^-1 B^T S]. *)
Definition optimal_gain (R : 'M[F]_m) (B : 'M[F]_(n, m)) (S : 'M[F]_n) :
    'M[F]_(m, n) :=
  invmx R *m B^T *m S.

(** The control law [u = - K x]. *)
Definition control_law (K : 'M[F]_(m, n)) (x : 'cV[F]_n) : 'cV[F]_m :=
  - (K *m x).

(** The integrand [x^T Q x + u^T R u] of the cost [J]. *)
Definition cost_rate (Q : 'M[F]_n) (R : 'M[F]_m)
    (x : 'cV[F]_n) (u : 'cV[F]_m) : F :=
  (x^T *m Q *m x + u^T *m R *m u) 0 0.

(** The rate of change of [x^T S x] along [x' = A x + B u]. *)
Definition value_rate (A : 'M[F]_n) (B : 'M[F]_(n, m)) (S : 'M[F]_n)
    (x : 'cV[F]_n) (u : 'cV[F]_m) : F :=
  ((A *m x + B *m u)^T *m S *m x + x^T *m S *m (A *m x + B *m u)) 0 0.

(** The Hamilton-Jacobi-Bellman expression of the cost [J] for the value
    [x^T S x]: what the control [u] costs at the state [x], plus the rate
    at which the value changes. *)
Definition bellman (A : 'M[F]_n) (B : 'M[F]_(n, m)) (Q : 'M[F]_n)
    (R : 'M[F]_m) (S : 'M[F]_n) (x : 'cV[F]_n) (u : 'cV[F]_m) : F :=
  cost_rate Q R x u + value_rate A B S x u.

End Control.

(** ** The statements of the notebook *)
Section Notebook.

Variable F : realFieldType.
Variables (sym : eqType) (expr opaque KanesMethod : Type).
Variable lib : Library F sym expr opaque KanesMethod.

(** Names bound by [from solution.visualization import *] that the notebook
    reads and never rebinds. *)
Variables (coordinates speeds specified : seq sym).
Variable kane : KanesMethod.
Variable y : seq (seq F).

Notation globals := (Globals.t F sym expr opaque).
Notation world := (world F sym expr opaque).
Notation value := (value F sym expr).

(** A statement either raises, and then binds and shows nothing, or
    returns the next globals and world. *)
Definition stmt : Type := globals -> world -> result (globals * world).

(** An array argument of [solve_continuous_are]: SciPy checks it on entry
    and raises [ValueError] on an array of objects, which is what a SymPy
    matrix is to NumPy. *)
Definition validated {m n : nat} (name : string) (v : matval F expr m n) :
    result 'M[F]_(m, n) :=
  match v with
  | Numeric X => ret X
  | Symbolic _ => raise (ValueError name)
  end.

(** A global that must hold a SymPy matrix, as the argument of
    [matrix2numpy]. *)
Definition symbolic {m n : nat} (name : string) (v : matval F expr m n) :
    result 'M[expr]_(m, n) :=
  match v with
  | Symbolic X => ret X
  | Numeric _ => raise (AttributeError name)
  end.

Definition show_matval {m n : nat} (v : matval F expr m n) : value :=
  match v with
  | Symbolic X => VSymMatrix X
  | Numeric X => VMatrix X
  end.

(** [import ...] and [from ... import ...]: the names a module brings in
    are the parameters of this development; the statement binds nothing
    else. *)
Definition import_names (module : string) : stmt := fun g w => ret (g, w).

(** [%matplotlib inline], [rcParams['figure.figsize'] = (14, 8)] and
    [init_vprinting(...)] choose how later output is rendered, which the
    display of this model does not record. *)
Definition configure (setting : string) : stmt := fun g w => ret (g, w).

(** [%precision 3] returns the format it has set, which the cell shows. *)
Definition magic_precision : stmt := fun g w =>
  ret (g, show (Out (VStr "%.3f")) w).

(** [equilibrium_point = zeros(len(coordinates + speeds))] *)
Definition assign_equilibrium_point : stmt := fun g w =>
  ret (Globals.with_equilibrium_point
         (Some (zeros F (size (coordinates ++ speeds)))) g, w).

(** [equilibrium_point] *)
Definition show_equilibrium_point : stmt := fun g w =>
  let! v := lookup "equilibrium_point" (Globals.equilibrium_point g) in
  ret (g, show (Out (VArray v)) w).

(** [equilibrium_dict = dict(zip(coordinates + speeds, equilibrium_point))] *)
Definition assign_equilibrium_dict : stmt := fun g w =>
  let! v := lookup "equilibrium_point" (Globals.equilibrium_point g) in
  ret (Globals.with_equilibrium_dict
         (Some (dict_of_pairs (zip (coordinates ++ speeds) v))) g, w).

(** [equilibrium_dict] *)
Definition show_equilibrium_dict : stmt := fun g w =>
  let! d := lookup "equilibrium_dict" (Globals.equilibrium_dict g) in
  ret (g, show (Out (VDict d)) w).

(** [%load path]: the text of the file replaces the input of the cell;
    nothing is executed and nothing is bound. *)
Definition load (path : string) : stmt := fun g w =>
  match dict_get (files w) path with
  | Some _ => ret (g, w)
  | None => raise (ValueError path)
  end.

(** [linearizer = kane.to_linearizer()] *)
Definition assign_linearizer : stmt := fun g w =>
  let! l := to_linearizer lib kane in
  ret (Globals.with_linearizer (Some l) g, w).

(** [Matrix(specified)] *)
Definition Matrix (s : seq sym) : attr F sym opaque := Symbols s.

(** [==] between an attribute and a SymPy matrix of symbols. *)
Definition attr_eq (a b : attr F sym opaque) : bool :=
  match a, b with
  | Symbols s, Symbols s' => s == s'
  | _, _ => false
  end.

Definition read_attr (o : pyobj (attr F sym opaque)) (a : string) :
    result (attr F sym opaque) :=
  match getattr o a with
  | Some v => ret v
  | None => raise (AttributeError a)
  end.

(** [linearizer.r == Matrix(specified)] *)
Definition compare_r : stmt := fun g w =>
  let! l := lookup "linearizer" (Globals.linearizer g) in
  let! r := read_attr l "r" in
  ret (g, show (Out (VBool (attr_eq r (Matrix specified)))) w).

(** [linearizer.r = Matrix(specified)] *)
Definition assign_r : stmt := fun g w =>
  let! l := lookup "linearizer" (Globals.linearizer g) in
  ret (Globals.with_linearizer (Some (setattr l "r" (Matrix specified))) g, w).

(** [help(linearizer.linearize)] *)
Definition help_linearize : stmt := fun g w =>
  let! l := lookup "linearizer" (Globals.linearizer g) in
  ret (g, show (Help "linearizer.linearize") w).

(** [A, B = linearizer.linearize(op_point=[equilibrium_dict,
    parameter_dict], A_and_B=True)] *)
Definition assign_A_B : stmt := fun g w =>
  let! l := lookup "linearizer" (Globals.linearizer g) in
  let! ed := lookup "equilibrium_dict" (Globals.equilibrium_dict g) in
  let! pd := lookup "parameter_dict" (Globals.parameter_dict g) in
  let! r := linearize lib l [:: ed; pd] true in
  ret (Globals.with_B (Some (Symbolic r.2.2))
         (Globals.with_A (Some (Symbolic r.2.1))
            (Globals.with_linearizer (Some r.1) g)), w).

(** [A = matrix2numpy(A, dtype=float)] *)
Definition convert_A : stmt := fun g w =>
  let! a := lookup "A" (Globals.A g) in
  let! a := symbolic "A" a in
  let! a := matrix2numpy lib a in
  ret (Globals.with_A (Some (Numeric a)) g, w).

(** [B = matrix2numpy(B, dtype=float)] *)
Definition convert_B : stmt := fun g w =>
  let! b := lookup "B" (Globals.B g) in
  let! b := symbolic "B" b in
  let! b := matrix2numpy lib b in
  ret (Globals.with_B (Some (Numeric b)) g, w).

(** [A] *)
Definition show_A : stmt := fun g w =>
  let! a := lookup "A" (Globals.A g) in
  ret (g, show (Out (show_matval a)) w).

(** [B] *)
Definition show_B : stmt := fun g w =>
  let! b := lookup "B" (Globals.B g) in
  ret (g, show (Out (show_matval b)) w).

(** [controllable(A, B)] *)
Definition check_controllable : stmt := fun g w =>
  let! a := lookup "A" (Globals.A g) in
  let! b := lookup "B" (Globals.B g) in
  let! c := controllable lib a b in
  ret (g, show (Out (VBool c)) w).

(** [Q = eye(6)] *)
Definition assign_Q : stmt := fun g w =>
  ret (Globals.with_Q (Some (eye F 6)) g, w).

(** [Q] *)
Definition show_Q : stmt := fun g w =>
  let! q := lookup "Q" (Globals.Q g) in
  ret (g, show (Out (VMatrix q)) w).

(** [R = eye(3)] *)
Definition assign_R : stmt := fun g w =>
  ret (Globals.with_R (Some (eye F 3)) g, w).

(** [R] *)
Definition show_R : stmt := fun g w =>
  let! r := lookup "R" (Globals.R g) in
  ret (g, show (Out (VMatrix r)) w).

(** [S = solve_continuous_are(A, B, Q, R)] *)
Definition assign_S : stmt := fun g w =>
  let! a := lookup "A" (Globals.A g) in
  let! b := lookup "B" (Globals.B g) in
  let! q := lookup "Q" (Globals.Q g) in
  let! r := lookup "R" (Globals.R g) in
  let! a := validated "A" a in
  let! b := validated "B" b in
  let! s := solve_continuous_are lib a b q r in
  ret (Globals.with_S (Some s) g, w).

(** [dot(dot(Ri, B.T), S)]: on a [B] that is still the SymPy matrix, [dot]
    returns an array of objects. *)
Definition dot_dot (Ri : 'M[F]_3) (b : matval F expr 6 3) (S : 'M[F]_6) :
    matval F expr 3 6 :=
  match b with
  | Numeric B => Numeric (dot (dot Ri (transpose B)) S)
  | Symbolic Y =>
      Symbolic (object_dot lib
                  (object_dot lib (map_mx (as_object lib) Ri) Y^T)
                  (map_mx (as_object lib) S))
  end.

(** [K = dot(dot(inv(R), B.T), S)], evaluated from the inside out. *)
Definition assign_K : stmt := fun g w =>
  let! r := lookup "R" (Globals.R g) in
  let! ri := inv r in
  let! b := lookup "B" (Globals.B g) in
  let! s := lookup "S" (Globals.S g) in
  ret (Globals.with_K (Some (dot_dot ri b s)) g, w).

(** [K] *)
Definition show_K : stmt := fun g w =>
  let! k := lookup "K" (Globals.K g) in
  ret (g, show (Out (show_matval k)) w).

(** [help(right_hand_side)] *)
Definition help_right_hand_side : stmt := fun g w =>
  ret (g, show (Help "right_hand_side") w).

(** The function the notebook defines:
    [def controller():] with a docstring and a bare [return].  It has no
    parameter, so a call with any argument raises [TypeError]; the bare
    [return] yields [None]. *)
Definition controller : pyfun F sym expr := fun args kwargs =>
  match args, kwargs with
  | [::], [::] => ret VNone
  | _, _ => raise (TypeError "controller() takes 0 positional arguments")
  end.

(** The [def] statement binds the name. *)
Definition def_controller : stmt := fun g w =>
  ret (Globals.with_controller (Some controller) g, w).

(** [scene.states_trajectories = y] *)
Definition assign_states_trajectories : stmt := fun g w =>
  ret (Globals.with_scene
         (setattr (Globals.scene g) "states_trajectories" (Trajectory y)) g,
       w).

(** [scene.display_ipython()] *)
Definition call_display_ipython : stmt := fun g w =>
  let! r := display_ipython lib (Globals.scene g) w in
  ret (Globals.with_scene r.1 g, r.2).

(** The statements of the code cells, in the order of the file. *)
Definition notebook : seq stmt :=
  [:: import_names "__future__";
      import_names "solution.visualization";
      import_names "numpy";
      import_names "numpy.linalg";
      configure "%matplotlib inline";
      import_names "matplotlib.pyplot";
      configure "rcParams['figure.figsize'] = (14, 8)";
      import_names "sympy";
      import_names "sympy.physics.vector";
      configure "init_vprinting(use_latex='mathjax', pretty_print=False)";
      magic_precision;
      assign_equilibrium_point; show_equilibrium_point;
      assign_equilibrium_dict; show_equilibrium_dict;
      load "exercise_solutions/n09_control_parameter-dict.py";
      assign_linearizer;
      compare_r;
      assign_r;
      help_linearize;
      assign_A_B;
      convert_A; convert_B;
      show_A;
      show_B;
      import_names "utils";
      check_controllable;
      import_names "scipy.linalg";
      assign_Q; show_Q;
      assign_R; show_R;
      assign_S; assign_K; show_K;
      help_right_hand_side;
      def_controller;
      load "exercise_solutions/n09_control_controller-function.py";
      load "exercise_solutions/n09_control_integrate-eom.py";
      load "exercise_solutions/n09_control_plot-angles.py";
      load "exercise_solutions/n09_control_plot-velocities.py";
      assign_states_trajectories;
      call_display_ipython].

(** Running statements one after the other stops at the first exception
    and keeps the bindings made so far. *)
Fixpoint run (p : seq stmt) (g : globals) (w : world) :
    globals * world * option exn :=
  match p with
  | [::] => (g, w, None)
  | c :: p' =>
      match c g w with
      | inl e => (g, w, Some e)
      | inr gw => run p' gw.1 gw.2
      end
  end.

(** The same as a relation between the start and the end of a run. *)
Inductive exec : seq stmt -> globals -> world ->
    globals * world * option exn -> Prop :=
  | exec_done g w : exec [::] g w (g, w, None)
  | exec_raise c p g w e :
      c g w = inl e -> exec (c :: p) g w (g, w, Some e)
  | exec_next c p g w g' w' r :
      c g w = inr (g', w') -> exec p g' w' r -> exec (c :: p) g w r.

(** The dictionary [equilibrium_dict] is bound to. *)
Definition equilibrium : dict sym F :=
  dict_of_pairs (zip (coordinates ++ speeds)
                     (zeros F (size (coordinates ++ speeds)))).

(** What a run of the whole notebook that raises nothing has called and
    bound, listed: [r0] is the input order the library chose, [l0] and [l1]
    the linearizer before the assignment of [r] and after [linearize]. *)
Inductive completed (g : globals) (w : world) : globals * world -> Prop :=
  Completed pd l0 r0 l1 X Y a b c s ri sc w' of
    Globals.parameter_dict g = Some pd
  & to_linearizer lib kane = inr l0
  & getattr l0 "r" = Some r0
  & linearize lib (setattr l0 "r" (Matrix specified)) [:: equilibrium; pd] true
    = inr (l1, (X, Y))
  & matrix2numpy lib X = inr a
  & matrix2numpy lib Y = inr b
  & controllable lib (Numeric a) (Numeric b) = inr c
  & solve_continuous_are lib a b (eye F 6) (eye F 3) = inr s
  & inv (eye F 3) = inr ri
  & display_ipython lib
      (setattr (Globals.scene g) "states_trajectories" (Trajectory y))
      (World (files w)
         (display w ++
          [:: Out (VStr "%.3f");
              Out (VArray (zeros F (size (coordinates ++ speeds))));
              Out (VDict equilibrium);
              Out (VBool (attr_eq r0 (Matrix specified)));
              Help "linearizer.linearize";
              Out (VMatrix a); Out (VMatrix b); Out (VBool c);
              Out (VMatrix (eye F 6)); Out (VMatrix (eye F 3));
              Out (VMatrix (dot (dot ri (transpose b)) s));
              Help "right_hand_side"]))
    = inr (sc, w')
  : completed g w
      (Globals.Make sc (Some pd)
         (Some (zeros F (size (coordinates ++ speeds)))) (Some equilibrium)
         (Some l1) (Some (Numeric a)) (Some (Numeric b))
         (Some (eye F 6)) (Some (eye F 3)) (Some s)
         (Some (Numeric (dot (dot ri (transpose b)) s)))
         (Some controller),
       w').

(** A library call made by a statement raises [e] on the arguments the
    statement passes to it. *)
Inductive library_raises : stmt -> globals -> world -> exn -> Prop :=
  | raises_load path g w :
      dict_get (files w) path = None ->
      library_raises (load path) g w (ValueError path)
  | raises_to_linearizer g w e :
      to_linearizer lib kane = inl e ->
      library_raises assign_linearizer g w e
  | raises_linearize g w l ed pd e :
      Globals.linearizer g = Some l ->
      Globals.equilibrium_dict g = Some ed ->
      Globals.parameter_dict g = Some pd ->
      linearize lib l [:: ed; pd] true = inl e ->
      library_raises assign_A_B g w e
  | raises_matrix2numpy_A g w X e :
      Globals.A g = Some (Symbolic X) ->
      matrix2numpy lib X = inl e ->
      library_raises convert_A g w e
  | raises_matrix2numpy_B g w Y e :
      Globals.B g = Some (Symbolic Y) ->
      matrix2numpy lib Y = inl e ->
      library_raises convert_B g w e
  | raises_controllable g w a b e :
      Globals.A g = Some a ->
      Globals.B g = Some b ->
      controllable lib a b = inl e ->
      library_raises check_controllable g w e
  | raises_solve_continuous_are g w a b q r e :
      Globals.A g = Some (Numeric a) ->
      Globals.B g = Some (Numeric b) ->
      Globals.Q g = Some q ->
      Globals.R g = Some r ->
      solve_continuous_are lib a b q r = inl e ->
      library_raises assign_S g w e
  | raises_inv g w r e :
      Globals.R g = Some r ->
      inv r = inl e ->
      library_raises assign_K g w e
  | raises_display_ipython g w e :
      display_ipython lib (Globals.scene g) w = inl e ->
      library_raises call_display_ipython g w e.

(** What the linear model [dx = A x + B r] that [linearize] returns means
    for the columns of [B]: column [j] is the response to the [j]-th entry
    of the attribute [r], and depends on nothing else in [r]. *)
Definition columns_follow_r
    (column : pyobj (attr F sym opaque) -> seq (dict sym F) -> option sym ->
              'cV[expr]_6) : Prop :=
  forall l op rs l' X Y,
    getattr l "r" = Some (Symbols rs) ->
    linearize lib l op true = inr (l', (X, Y)) ->
    forall j : 'I_3, col j Y = column (without "r" l) op (ohead (drop j rs)).

(** What [linearize] returns, as SymPy documents it: called with
    [A_and_B=True] on the linearizer that [to_linearizer] built from [kane],
    its attribute [r] set to the inputs [rs], it returns the state matrix
    and the input matrix of the linear model [dx' = A dx + B dr], the
    Jacobians of the equations of motion of [kane] in the states and in the
    inputs, at the operating point.  [jacobians k rs op] stands for these
    two matrices for the equations of motion of [k], the inputs [rs] and the
    operating point [op]. *)
Definition linearize_returns_jacobians
    (jacobians : KanesMethod -> seq sym -> seq (dict sym F) ->
                 'M[expr]_6 * 'M[expr]_(6, 3)) : Prop :=
  forall l0 rs op l' X Y,
    to_linearizer lib kane = inr l0 ->
    linearize lib (setattr l0 "r" (Symbols rs)) op true = inr (l', (X, Y)) ->
    (X, Y) = jacobians kane rs op.

(** A statement that touches the world only by adding to the display. *)
Definition silent (c : stmt) : Prop :=
  forall g w g' w',
    c g w = inr (g', w') ->
    exists out, w' = World (files w) (display w ++ out).

(** The values the notebook produces for the controller design. *)
Definition products (g : globals) :=
  (Globals.equilibrium_dict g, Globals.A g, Globals.B g,
   Globals.S g, Globals.K g).

(** The array a controller returns at the state [x] when it follows the
    law [u = - K x]. *)
Definition lqr_output (K : 'M[F]_(3, 6)) (x : seq F) : value :=
  VArray [seq control_law K (\col_i nth 0 x i) i 0 | i <- enum 'I_3].

(** The solution files the [%load] cells name. *)
Definition solution_files : seq string :=
  [:: "exercise_solutions/n09_control_parameter-dict.py";
      "exercise_solutions/n09_control_controller-function.py";
      "exercise_solutions/n09_control_integrate-eom.py";
      "exercise_solutions/n09_control_plot-angles.py";
      "exercise_solutions/n09_control_plot-velocities.py"]%string.

End Notebook.

(** ** Where an array comes from *)
Section Provenance.

Variable F : realFieldType.
Variables (sym : eqType) (expr opaque KanesMethod : Type).
Variable lib : Library F sym expr opaque KanesMethod.

(** A SymPy matrix returned by [linearize]. *)
Inductive linearize_made : forall m n : nat, 'M[expr]_(m, n) -> Prop :=
  | made_state_matrix l op ab l' X Y :
      linearize lib l op ab = inr (l', (X, Y)) -> linearize_made X
  | made_input_matrix l op ab l' X Y :
      linearize lib l op ab = inr (l', (X, Y)) -> linearize_made Y.

(** An array that is the result of one library call on such results, or is
    made from such arrays by transposition, inversion and product. *)
Inductive library_made : forall m n : nat, 'M[F]_(m, n) -> Prop :=
  | made_by_matrix2numpy m n (X : 'M[expr]_(m, n)) Y :
      linearize_made X -> matrix2numpy lib X = inr Y -> library_made Y
  | made_by_eye n : library_made (eye F n)
  | made_by_solve_continuous_are A B Q R S :
      library_made A -> library_made B -> library_made Q -> library_made R ->
      solve_continuous_are lib A B Q R = inr S -> library_made S
  | made_by_transpose m n (X : 'M[F]_(m, n)) :
      library_made X -> library_made (transpose X)
  | made_by_inv n (X Y : 'M[F]_n) :
      library_made X -> inv X = inr Y -> library_made Y
  | made_by_dot m n p (X : 'M[F]_(m, n)) (Y : 'M[F]_(n, p)) :
      library_made X -> library_made Y -> library_made (dot X Y).

End Provenance.

(** ** A small instance

    Symbols are their names, the entries of SymPy matrices are already
    numbers, and the library routines are the simplest ones of the right
    shape.  The input matrix has one constant column per input, whose entry
    is the length of the input's name. *)
Module Demo.

Definition coordinates : seq string := [:: "theta1"; "theta2"; "theta3"]%string.
Definition speeds : seq string := [:: "omega1"; "omega2"; "omega3"]%string.
Definition specified : seq string := [:: "T_ankle"; "T_knee"; "T_hip"]%string.

(** The inputs in the alphabetical order the library chooses. *)
Definition sorted_inputs : seq string :=
  [:: "T_ankle"; "T_hip"; "T_knee"]%string.

Definition linearizer0 : pyobj (attr rat string unit) :=
  [:: ("q"%string, Symbols coordinates); ("u"%string, Symbols speeds);
      ("r"%string, Symbols sorted_inputs)].

Definition weight (s : option string) : rat :=
  if s is Some name then (String.length name)%:R else 0.

Definition column (l : pyobj (attr rat string unit))
    (op : seq (dict string rat)) (s : option string) : 'cV[rat]_6 :=
  \col_i weight s.

Definition input_matrix (rs : seq string) : 'M[rat]_(6, 3) :=
  \matrix_(i, j) weight (ohead (drop j rs)).

(** The state matrix for which the identity solves the Riccati equation
    with [Q] and [R] the identity. *)
Definition state_matrix (rs : seq string) : 'M[rat]_6 :=
  2^-1 *: (input_matrix rs *m (input_matrix rs)^T - 1%:M).

Definition linearize_columns (l : pyobj (attr rat string unit))
    (op : seq (dict string rat)) (A_and_B : bool) :
    result (pyobj (attr rat string unit) * ('M[rat]_6 * 'M[rat]_(6, 3))) :=
  match getattr l "r" with
  | Some (Symbols rs) => ret (l, (state_matrix rs, input_matrix rs))
  | _ => raise (AttributeError "r")
  end.

Definition render (sc : pyobj (attr rat string unit))
    (w : world rat string rat unit) :
    result (pyobj (attr rat string unit) * world rat string rat unit) :=
  ret (sc, show (Rendered sc) w).

Definition lib : Library rat string rat unit unit :=
  {| to_linearizer := fun _ => ret linearizer0;
     linearize := linearize_columns;
     matrix2numpy := fun m n X => ret X;
     controllable := fun _ _ => ret true;
     solve_continuous_are := fun _ _ _ _ => ret 1%:M;
     display_ipython := render;
     as_object := id;
     object_dot := fun m n p X Y => X *m Y |}.

(** The two matrices of the instance. *)
Definition jacobians (k : unit) (rs : seq string)
    (op : seq (dict string rat)) : 'M[rat]_6 * 'M[rat]_(6, 3) :=
  (state_matrix rs, input_matrix rs).

(** A library whose [display_ipython] writes a file before it shows the
    scene, as PyDy's writes the files the browser loads. *)
Definition render_to_disk (sc : pyobj (attr rat string unit))
    (w : world rat string rat unit) :
    result (pyobj (attr rat string unit) * world rat string rat unit) :=
  ret (sc, World (dict_set (files w) "static/index.html"%string
                    "<html>"%string)
             (rcons (display w) (Rendered sc))).

Definition writer_lib : Library rat string rat unit unit :=
  {| to_linearizer := fun _ => ret linearizer0;
     linearize := linearize_columns;
     matrix2numpy := fun m n X => ret X;
     controllable := fun _ _ => ret true;
     solve_continuous_are := fun _ _ _ _ => ret 1%:M;
     display_ipython := render_to_disk;
     as_object := id;
     object_dot := fun m n p X Y => X *m Y |}.

(** A library whose linearizer cannot be built. *)
Definition failing_lib : Library rat string rat unit unit :=
  {| to_linearizer := fun _ => raise (LibraryError "to_linearizer");
     linearize := linearize_columns;
     matrix2numpy := fun m n X => ret X;
     controllable := fun _ _ => ret true;
     solve_continuous_are := fun _ _ _ _ => ret 1%:M;
     display_ipython := render;
     as_object := id;
     object_dot := fun m n p X Y => X *m Y |}.

Definition parameter_dict : dict string rat := [:: ("g"%string, 10%:R)].

Definition scene0 : pyobj (attr rat string unit) :=
  [:: ("name"%string, Opaque tt)].

Definition y : seq (seq rat) := [:: [:: 0; 0; 0; 0; 0; 0]].

(** The session before the first statement: nothing bound but the imports
    and the answer to the first exercise. *)
Definition globals0 : Globals.t rat string rat unit :=
  Globals.Make scene0 (Some parameter_dict)
    None None None None None None None None None None.

Definition world0 : world rat string rat unit :=
  World [seq (path, "# solution"%string) | path <- solution_files] [::].

(** Another session with the same inputs: [K] is still bound from an
    earlier run and something is on display. *)
Definition stale_globals : Globals.t rat string rat unit :=
  Globals.with_K (Some (Numeric 0)) globals0.

Definition stale_world : world rat string rat unit :=
  show (Help "numpy.dot") world0.

Definition linearizer1 : pyobj (attr rat string unit) :=
  setattr linearizer0 "r" (Symbols specified).

Definition gain : 'M[rat]_(3, 6) :=
  dot (dot (eye rat 3) (transpose (input_matrix specified))) 1%:M.

(** The session after the last statement. *)
Definition final_globals (g : Globals.t rat string rat unit) :
    Globals.t rat string rat unit :=
  Globals.Make
    (setattr (Globals.scene g) "states_trajectories" (Trajectory y))
    (Some parameter_dict)
    (Some (zeros rat (size (coordinates ++ speeds))))
    (Some (equilibrium rat coordinates speeds))
    (Some linearizer1)
    (Some (Numeric (state_matrix specified)))
    (Some (Numeric (input_matrix specified)))
    (Some (eye rat 6)) (Some (eye rat 3)) (Some 1%:M)
    (Some (Numeric gain))
    (Some (controller (F := rat) (sym := string) (expr := rat))).

Definition final_world (g : Globals.t rat string rat unit)
    (w : world rat string rat unit) : world rat string rat unit :=
  show
    (Rendered (setattr (Globals.scene g) "states_trajectories" (Trajectory y)))
    (World (files w)
       (display w ++
        [:: Out (VStr "%.3f");
            Out (VArray (zeros rat (size (coordinates ++ speeds))));
            Out (VDict (equilibrium rat coordinates speeds));
            Out (VBool (attr_eq (Symbols sorted_inputs)
                          (Matrix rat unit specified)));
            Help "linearizer.linearize";
            Out (VMatrix (state_matrix specified));
            Out (VMatrix (input_matrix specified));
            Out (VBool true);
            Out (VMatrix (eye rat 6)); Out (VMatrix (eye rat 3));
            Out (VMatrix gain);
            Help "right_hand_side"])).

(** The session when [to_linearizer] is about to be called. *)
Definition globals_at_linearizer : Globals.t rat string rat unit :=
  Globals.with_equilibrium_dict
    (Some (equilibrium rat coordinates speeds))
    (Globals.with_equilibrium_point
       (Some (zeros rat (size (coordinates ++ speeds)))) globals0).

Definition world_at_linearizer : world rat string rat unit :=
  show (Out (VDict (equilibrium rat coordinates speeds)))
    (show (Out (VArray (zeros rat (size (coordinates ++ speeds)))))
       (show (Out (VStr "%.3f")) world0)).

End Demo.

(** ** What can end a run

    The ways a run of the notebook, started with the globals [g] and the
    world [w], can end with the exception [e].  Each way names the statement
    that raises by what it reads or calls, on the arguments the notebook
    passes, and requires that every statement before it has returned. *)
Section Failures.

Variable F : realFieldType.
Variables (sym : eqType) (expr opaque KanesMethod : Type).
Variable lib : Library F sym expr opaque KanesMethod.
Variables (coordinates speeds specified : seq sym).
Variable kane : KanesMethod.
Variable y : seq (seq F).

Notation globals := (Globals.t F sym expr opaque).
Notation world := (world F sym expr opaque).

Definition missing (w : world) (path : string) : bool :=
  dict_get (files w) path == None.

(** The files of the [%load] cells after the first one. *)
Definition later_solutions : seq string := behead solution_files.

(** The statements up to [help(linearizer.linearize)] have returned: the
    first solution file is there, [to_linearizer] has returned [l0], and
    [l0] has the attribute [r], with the value [r0]. *)
Definition linearizer_built (w : world) l0 r0 : Prop :=
  [/\ ~~ missing w "exercise_solutions/n09_control_parameter-dict.py",
      to_linearizer lib kane = inr l0
    & getattr l0 "r" = Some r0].

(** And so has [linearize], called as the notebook calls it. *)
Definition linearized (g : globals) (w : world) l0 r0 pd l1 X Y : Prop :=
  [/\ linearizer_built w l0 r0,
      Globals.parameter_dict g = Some pd
    & linearize lib (setattr l0 "r" (Matrix F opaque specified))
        [:: equilibrium F coordinates speeds; pd] true
      = inr (l1, (X, Y))].

(** And so have the two calls of [matrix2numpy]. *)
Definition converted (g : globals) (w : world) l0 r0 pd l1 X Y a b : Prop :=
  [/\ linearized g w l0 r0 pd l1 X Y,
      matrix2numpy lib X = inr a
    & matrix2numpy lib Y = inr b].

(** And so have [controllable] and [solve_continuous_are]. *)
Definition solved (g : globals) (w : world) l0 r0 pd l1 X Y a b c s : Prop :=
  [/\ converted g w l0 r0 pd l1 X Y a b,
      controllable lib (Numeric a) (Numeric b) = inr c
    & solve_continuous_are lib a b (eye F 6) (eye F 3) = inr s].

(** What the session has displayed when [scene.display_ipython()] is
    called. *)
Definition displayed r0 (a : 'M[F]_6) (b : 'M[F]_(6, 3)) c (s : 'M[F]_6) :
    seq (output F sym expr opaque) :=
  [:: Out (VStr "%.3f");
      Out (VArray (zeros F (size (coordinates ++ speeds))));
      Out (VDict (equilibrium F coordinates speeds));
      Out (VBool (attr_eq r0 (Matrix F opaque specified)));
      Help "linearizer.linearize";
      Out (VMatrix a); Out (VMatrix b); Out (VBool c);
      Out (VMatrix (eye F 6)); Out (VMatrix (eye F 3));
      Out (VMatrix (dot (dot (eye F 3) (transpose b)) s));
      Help "right_hand_side"].

Inductive notebook_error (g : globals) (w : world) : exn -> Prop :=
  | missing_first_solution :
      missing w "exercise_solutions/n09_control_parameter-dict.py" ->
      notebook_error g w
        (ValueError "exercise_solutions/n09_control_parameter-dict.py")
  | to_linearizer_raised e :
      ~~ missing w "exercise_solutions/n09_control_parameter-dict.py" ->
      to_linearizer lib kane = inl e ->
      notebook_error g w e
  | linearizer_without_r l0 :
      ~~ missing w "exercise_solutions/n09_control_parameter-dict.py" ->
      to_linearizer lib kane = inr l0 ->
      getattr l0 "r" = None ->
      notebook_error g w (AttributeError "r")
  | unbound_parameter_dict l0 r0 :
      linearizer_built w l0 r0 ->
      Globals.parameter_dict g = None ->
      notebook_error g w (NameError "parameter_dict")
  | linearize_raised l0 r0 pd e :
      linearizer_built w l0 r0 ->
      Globals.parameter_dict g = Some pd ->
      linearize lib (setattr l0 "r" (Matrix F opaque specified))
        [:: equilibrium F coordinates speeds; pd] true = inl e ->
      notebook_error g w e
  | matrix2numpy_A_raised l0 r0 pd l1 X Y e :
      linearized g w l0 r0 pd l1 X Y ->
      matrix2numpy lib X = inl e ->
      notebook_error g w e
  | matrix2numpy_B_raised l0 r0 pd l1 X Y a e :
      linearized g w l0 r0 pd l1 X Y ->
      matrix2numpy lib X = inr a ->
      matrix2numpy lib Y = inl e ->
      notebook_error g w e
  | controllable_raised l0 r0 pd l1 X Y a b e :
      converted g w l0 r0 pd l1 X Y a b ->
      controllable lib (Numeric a) (Numeric b) = inl e ->
      notebook_error g w e
  | solve_continuous_are_raised l0 r0 pd l1 X Y a b c e :
      converted g w l0 r0 pd l1 X Y a b ->
      controllable lib (Numeric a) (Numeric b) = inr c ->
      solve_continuous_are lib a b (eye F 6) (eye F 3) = inl e ->
      notebook_error g w e
  | missing_later_solution l0 r0 pd l1 X Y a b c s before path after :
      solved g w l0 r0 pd l1 X Y a b c s ->
      later_solutions = before ++ path :: after ->
      ~~ has (missing w) before ->
      missing w path ->
      notebook_error g w (ValueError path)
  | display_ipython_raised l0 r0 pd l1 X Y a b c s e :
      solved g w l0 r0 pd l1 X Y a b c s ->
      ~~ has (missing w) later_solutions ->
      display_ipython lib
        (setattr (Globals.scene g) "states_trajectories" (Trajectory y))
        (World (files w) (display w ++ displayed r0 a b c s)) = inl e ->
      notebook_error g w e.

End Failures.

(** The session as the notebook ships: the first exercise is not answered,
    so nothing binds [parameter_dict]. *)
Definition shipped_globals : Globals.t rat string rat unit :=
  Globals.with_parameter_dict None Demo.globals0.

(** The notebook of the instance. *)
Notation demo_notebook lib :=
  (notebook lib Demo.coordinates Demo.speeds Demo.specified tt Demo.y).

(** ** Proof automation for statements *)

Ltac split_matches :=
  repeat match goal with
         | |- context [match ?x with inl _ => _ | inr _ => _ end] =>
             case: x => [?|?] //=
         | |- context [match ?x with Some _ => _ | None => _ end] =>
             case: x => [?|] //=
         | |- context [match ?x with Symbolic _ => _ | Numeric _ => _ end] =>
             case: x => [?|?] //=
         end.

Ltac unfold_statement :=
  rewrite /assign_equilibrium_point /show_equilibrium_point
    /assign_equilibrium_dict /show_equilibrium_dict /load /assign_linearizer
    /compare_r /read_attr /assign_r /help_linearize /assign_A_B /convert_A
    /convert_B /show_A /show_B /check_controllable /assign_Q /show_Q
    /assign_R /show_R /assign_S /assign_K /show_K /help_right_hand_side
    /def_controller /assign_states_trajectories /import_names /configure
    /magic_precision /lookup /validated /symbolic /dot_dot
    /bind /=.

Ltac silent_statement :=
  let g := fresh "g" in
  let w := fresh "w" in
  move=> g w ? ?; unfold_statement; split_matches;
  rewrite /ret => -[_ <-];
  first [ by exists nil; rewrite cats0; case: w
        | by eexists; rewrite /show -cats1 ].

(** * Properties *)

(** ** Dictionaries and objects: lookup after update *)
Section DictLemmas.

Variables (K : eqType) (V : Type).
Implicit Types (d : dict K V) (k : K) (v : V).

Lemma dict_get_set d k v k' :
  dict_get (dict_set d k v) k' = if k == k' then Some v else dict_get d k'.
Proof.
elim: d => [|[k0 v0] d IH] /=; first by [].
case: (eqVneq k0 k) => [->|ne0] /=; first by case: eqP.
rewrite IH; case: (eqVneq k0 k') => [e0|//].
by rewrite -e0 eq_sym (negbTE ne0).
Qed.

Lemma dict_get_foldl (ps : seq (K * V)) d k :
  dict_get (foldl (fun d kv => dict_set d kv.1 kv.2) d ps) k =
  if dict_get (rev ps) k is Some v then Some v else dict_get d k.
Proof.
elim: ps d => [|[k0 v0] ps IH] d //=.
rewrite IH rev_cons -cats1.
have cat_get (s t : dict K V) :
    dict_get (s ++ t) k =
    if dict_get s k is Some v then Some v else dict_get t k.
  by elim: s => [|[k1 v1] s IHs] //=; case: eqP.
rewrite cat_get dict_get_set /=.
by case: (dict_get (rev ps) k) => //; case: eqP.
Qed.

Lemma dict_get_of_pairs (ps : seq (K * V)) k :
  dict_get (dict_of_pairs ps) k = dict_get (rev ps) k.
Proof. by rewrite /dict_of_pairs dict_get_foldl; case: dict_get. Qed.

Lemma zip_nseq (ks : seq K) (i : nat) v :
  zip ks (nseq i v) = [seq (k, v) | k <- take i ks].
Proof. by elim: ks i => [|k ks IH] [|i] //=; rewrite IH. Qed.

Lemma dict_get_map_const (ks : seq K) v k :
  dict_get [seq (k', v) | k' <- ks] k = if k \in ks then Some v else None.
Proof.
elim: ks => [|k0 ks IH] //=.
by rewrite inE eq_sym; case: eqP.
Qed.

(** [dict(zip(keys, values))] when all the values are the same. *)
Lemma dict_get_zip_nseq (ks : seq K) (i : nat) v k :
  dict_get (dict_of_pairs (zip ks (nseq i v))) k =
  if k \in take i ks then Some v else None.
Proof.
by rewrite dict_get_of_pairs zip_nseq -map_rev dict_get_map_const mem_rev.
Qed.

End DictLemmas.

(** ** Attribute assignment *)
Section ObjectLemmas.

Variable V : Type.
Implicit Types (o : pyobj V) (a b : string) (v : V).

Lemma getattr_setattr o a v b :
  getattr (setattr o a v) b = if a == b then Some v else getattr o b.
Proof. exact: dict_get_set. Qed.

Lemma without_setattr o a v : without a (setattr o a v) = without a o.
Proof.
rewrite /without /setattr.
elim: o => [|[a0 v0] o IH] /=; first by rewrite eqxx.
by case: (eqVneq a0 a) => [->|ne] /=; rewrite ?eqxx ?ne ?IH.
Qed.

End ObjectLemmas.

(** ** The Riccati equation and the gain *)
Section ControlLemmas.

Variable F : realFieldType.
Variables n m : nat.
Implicit Types (A Q S : 'M[F]_n) (B : 'M[F]_(n, m)) (R : 'M[F]_m).
Implicit Types (x : 'cV[F]_n) (u : 'cV[F]_m).

Lemma trmx_add (p q : nat) (X Y : 'M[F]_(p, q)) : (X + Y)^T = X^T + Y^T.
Proof. by apply/matrixP => i j; rewrite !mxE. Qed.

(** Completing the square on matrices. *)
Lemma riccati_square A B Q R S x u :
  solves_riccati A B Q R S -> S^T = S -> R^T = R -> R \in unitmx ->
  x^T *m Q *m x + u^T *m R *m u +
  ((A *m x + B *m u)^T *m S *m x + x^T *m S *m (A *m x + B *m u)) =
  (u + optimal_gain R B S *m x)^T *m R *m (u + optimal_gain R B S *m x).
Proof.
move=> ric symS symR unitR.
have eQ : - (S *m A) - A^T *m S + S *m B *m invmx R *m B^T *m S = Q.
  by move/esym/eqP: ric; rewrite /riccati_rhs subr_eq0 => /eqP.
rewrite /optimal_gain !trmx_add !trmx_mul !mulmxDl !mulmxDr -!mulmxA.
rewrite trmx_inv trmxK symS symR !mulKVmx // !mulKmx //.
rewrite -eQ !(mulmxDl _ _ x) !mulmxDr !mulNmx !mulmxN -!mulmxA.
by apply/matrixP => i j; rewrite !mxE; ring.
Qed.

(** With a symmetric solution [S] of the Riccati equation, what a control
    costs beyond the decrease of [x^T S x] is the [R]-weighted square of
    its distance to [- K x]. *)
Lemma bellman_square A B Q R S x u :
  solves_riccati A B Q R S -> S^T = S -> R^T = R -> R \in unitmx ->
  bellman A B Q R S x u =
  ((u - control_law (optimal_gain R B S) x)^T *m R *m
     (u - control_law (optimal_gain R B S) x)) 0 0.
Proof.
move=> ric symS symR unitR.
rewrite /control_law opprK -(riccati_square x u ric symS symR unitR).
by rewrite /bellman /cost_rate /value_rate [RHS]mxE.
Qed.

Lemma square_ge0 (v : 'cV[F]_m) : 0 <= (v^T *m 1%:M *m v) 0 0.
Proof.
rewrite mulmx1 mxE; apply: sumr_ge0 => i _.
by rewrite mxE -expr2 sqr_ge0.
Qed.

(** With [R] the identity, [u = - K x] makes that cost vanish and every
    other control pays at least as much. *)
Lemma control_law_optimal A B Q S x u :
  solves_riccati A B Q (eye F m) S -> S^T = S ->
  let K := optimal_gain (eye F m) B S in
  bellman A B Q (eye F m) S x (control_law K x) = 0 /\
  bellman A B Q (eye F m) S x (control_law K x) <=
  bellman A B Q (eye F m) S x u.
Proof.
move=> ric symS K.
have symR : (eye F m)^T = eye F m by rewrite /eye trmx1.
have unitR : eye F m \in unitmx by rewrite /eye unitmx1.
have at_law : bellman A B Q (eye F m) S x (control_law K x) = 0.
  by rewrite bellman_square // subrr trmx0 !mul0mx mxE.
by rewrite at_law bellman_square // square_ge0.
Qed.

End ControlLemmas.

(** ** Runs of the notebook *)
Section Runs.

Variable F : realFieldType.
Variables (sym : eqType) (expr opaque KanesMethod : Type).
Variable lib : Library F sym expr opaque KanesMethod.
Variables (coordinates speeds specified : seq sym).
Variable kane : KanesMethod.
Variable y : seq (seq F).

Notation globals := (Globals.t F sym expr opaque).
Notation world := (world F sym expr opaque).
Notation the_notebook :=
  (notebook lib coordinates speeds specified kane y).

Lemma inv_eye (n : nat) : inv (eye F n) = inr (eye F n).
Proof. by rewrite /inv /eye unitmx1 invmx1. Qed.

Lemma run_step c (p : seq (stmt F sym expr opaque)) (g : globals)
    (w : world) gw :
  run (c :: p) g w = (gw, None) ->
  exists2 gw', c g w = inr gw' & run p gw'.1 gw'.2 = (gw, None).
Proof. by rewrite /=; case: (c g w) => [e|gw'] //; exists gw'. Qed.

Lemma run_next c (p : seq (stmt F sym expr opaque)) (g : globals)
    (w : world) gw r :
  c g w = inr gw -> run p gw.1 gw.2 = r -> run (c :: p) g w = r.
Proof. by move=> /= ->. Qed.

Lemma run_cat (p1 p2 : seq (stmt F sym expr opaque)) (g : globals)
    (w : world) g' w' :
  run p1 g w = (g', w', None) -> run (p1 ++ p2) g w = run p2 g' w'.
Proof.
elim: p1 g w => [|c p1 IH] g w /=; first by case=> -> ->.
by case: (c g w) => [e|[g1 w1]] //=; apply: IH.
Qed.

Lemma run_cat_raised (p1 p2 : seq (stmt F sym expr opaque)) (g : globals)
    (w : world) g' w' e :
  run p1 g w = (g', w', Some e) -> run (p1 ++ p2) g w = (g', w', Some e).
Proof.
elim: p1 g w => [|c p1 IH] g w //=.
by case: (c g w) => [e0|[g1 w1]] //=; apply: IH.
Qed.

(** The exception a run ends with is the one a statement raised, and the
    run stopped there. *)
Lemma run_raised (p : seq (stmt F sym expr opaque)) (g : globals)
    (w : world) g' w' e :
  run p g w = (g', w', Some e) ->
  exists p1 c p2,
    [/\ p = p1 ++ c :: p2, run p1 g w = (g', w', None) & c g' w' = inl e].
Proof.
elim: p g w => [|c p IH] g w //=.
case Ec: (c g w) => [e0|[g1 w1]] /=.
  by case=> <- <- <-; exists [::], c, p.
case/IH=> p1 [c1 [p2 [-> run1 raise1]]].
by exists (c :: p1), c1, p2; rewrite /= Ec.
Qed.

Lemma exec_run (p : seq (stmt F sym expr opaque)) (g : globals)
    (w : world) r :
  exec p g w r <-> run p g w = r.
Proof.
split.
  by elim=> [g0 w0|c p0 g0 w0 e Ec|c p0 g0 w0 g1 w1 r0 Ec _ IH] //=;
     rewrite Ec.
elim: p g w => [|c p IH] g w /=; first by move<-; exact: exec_done.
case Ec: (c g w) => [e|[g1 w1]] /=; first by move<-; exact: exec_raise.
by move=> /IH; exact: exec_next.
Qed.

Lemma silent_run (p : seq (stmt F sym expr opaque)) :
  List.Forall (@silent F sym expr opaque) p ->
  forall g w,
    exists out, (run p g w).1.2 = World (files w) (display w ++ out).
Proof.
have nothing (w : world) :
    exists out, w = World (files w) (display w ++ out).
  by exists nil; rewrite cats0; case: w.
elim=> [|c p0 silent_c _ IH] g w //=.
case Ec: (c g w) => [e|[g1 w1]] //=.
have [out1 world1] := silent_c _ _ _ _ Ec.
have [out2 ->] := IH g1 w1.
by exists (out1 ++ out2); rewrite world1 /= catA.
Qed.

Lemma load_ok path (g : globals) (w : world) gw :
  load path g w = inr gw -> (g, w) = gw.
Proof. by rewrite /load; case: (dict_get _ _) => [_|] // [<-]. Qed.

Local Arguments run : simpl never.

Lemma run_completed (g : globals) (w : world) gw :
  run the_notebook g w = (gw, None) ->
  completed lib coordinates speeds specified kane y g w gw.
Proof.
rewrite /notebook.
do 11![move=> /run_step [[? ?] /= [<- <-]]].
move=> /run_step [[g1 w1] /= [<- <-]].
move=> /run_step [[g2 w2] /= [<- <-]].
move=> /run_step [[g3 w3] /= [<- <-]].
move=> /run_step [[g4 w4] /= [<- <-]].
move=> /run_step [[g5 w5] /load_ok [<- <-]] /=.
move=> /run_step [[g6 w6]]; rewrite /assign_linearizer.
case El: (to_linearizer lib kane) => [e|l0] //= [<- <-].
move=> /run_step [[g7 w7]]; rewrite /compare_r /= /read_attr.
case Er: (getattr l0 "r") => [r0|] //= [<- <-].
move=> /run_step [[g8 w8] /= [<- <-]].
move=> /run_step [[g9 w9] /= [<- <-]].
move=> /run_step [[g10 w10]]; rewrite /assign_A_B /=.
case Ep: (Globals.parameter_dict g) => [pd|] //=.
case Ez: (linearize _ _ _ _) => [e|[l1 [X Y]]] //= [<- <-].
move=> /run_step [[g11 w11]]; rewrite /convert_A /=.
case Ea: (matrix2numpy lib X) => [e|a] //= [<- <-].
move=> /run_step [[g12 w12]]; rewrite /convert_B /=.
case Eb: (matrix2numpy lib Y) => [e|b] //= [<- <-].
move=> /run_step [[g13 w13] /= [<- <-]].
move=> /run_step [[g14 w14] /= [<- <-]].
move=> /run_step [[? ?] /= [<- <-]].
move=> /run_step [[g15 w15]]; rewrite /check_controllable /=.
case Ec: (controllable _ _ _) => [e|c] //= [<- <-].
move=> /run_step [[? ?] /= [<- <-]].
move=> /run_step [[g16 w16] /= [<- <-]].
move=> /run_step [[g17 w17] /= [<- <-]].
move=> /run_step [[g18 w18] /= [<- <-]].
move=> /run_step [[g19 w19] /= [<- <-]].
move=> /run_step [[g20 w20]]; rewrite /assign_S /=.
case Es: (solve_continuous_are _ _ _ _ _) => [e|s] //= [<- <-].
move=> /run_step [[g21 w21]]; rewrite /assign_K /=.
case Ei: (inv (eye F 3)) => [e|ri] //= [<- <-].
move=> /run_step [[g22 w22] /= [<- <-]].
move=> /run_step [[g23 w23] /= [<- <-]].
move=> /run_step [[g24 w24] /= [<- <-]].
move=> /run_step [[g25 w25] /load_ok [<- <-]] /=.
move=> /run_step [[g26 w26] /load_ok [<- <-]] /=.
move=> /run_step [[g27 w27] /load_ok [<- <-]] /=.
move=> /run_step [[g28 w28] /load_ok [<- <-]] /=.
move=> /run_step [[g29 w29] /= [<- <-]].
move=> /run_step [[g30 w30]]; rewrite /call_display_ipython /=.
case Ed: (display_ipython _ _ _) => [e|[sc w']] //= [<- <-].
rewrite /run => -[<-]; rewrite /Globals.with_scene /= Ep.
apply: (Completed Ep El Er Ez Ea Eb Ec Es Ei).
by rewrite -Ed /show /= -cats1 !cat_rcons.
Qed.

(** A run whose library calls all return, on a disk that holds the
    solution files, raises nothing. *)
Lemma load_found path (g : globals) (w : world) :
  path \in solution_files ->
  all (fun f => dict_get (files w) f != None) solution_files ->
  load path g w = inr (g, w).
Proof.
move=> in_path /allP /(_ path in_path); rewrite /load.
by case: (dict_get _ _).
Qed.

Lemma completed_run (g : globals) (w : world) gw :
  all (fun f => dict_get (files w) f != None) solution_files ->
  completed lib coordinates speeds specified kane y g w gw ->
  run the_notebook g w = (gw, None).
Proof.
move=> on_disk.
case=> pd l0 r0 l1 X Y a b c s ri sc w' Ep El Er Ez Ea Eb Ec Es Ei Ed.
have found path (g0 : globals) d : path \in solution_files ->
    load path g0 (World (files w) d) = inr (g0, World (files w) d).
  by move=> in_path; apply: load_found.
rewrite /notebook.
do 15![apply: run_next; first by []]; rewrite /=.
apply: run_next; first by apply: found; rewrite !inE.
apply: run_next; first by rewrite /assign_linearizer El.
apply: run_next; first by rewrite /compare_r /= /read_attr Er.
do 2![apply: run_next; first by []]; rewrite /=.
apply: run_next; first by rewrite /assign_A_B /= Ep /= Ez.
apply: run_next; first by rewrite /convert_A /= Ea.
apply: run_next; first by rewrite /convert_B /= Eb.
do 3![apply: run_next; first by []]; rewrite /=.
apply: run_next; first by rewrite /check_controllable /= Ec.
do 5![apply: run_next; first by []]; rewrite /=.
apply: run_next; first by rewrite /assign_S /= Es.
apply: run_next; first by rewrite /assign_K /= Ei.
do 3![apply: run_next; first by []]; rewrite /=.
do 4![apply: run_next; first by apply: found; rewrite !inE]; rewrite /=.
apply: run_next; first by [].
rewrite /run /call_display_ipython /= -cats1 !cat_rcons Ed /=.
by rewrite /Globals.with_scene /= Ep.
Qed.

Lemma inv_eye_inr (n : nat) (ri : 'M[F]_n) :
  inv (eye F n) = inr ri -> ri = eye F n.
Proof. by rewrite inv_eye => -[]. Qed.

(** C1: at the end of a run that raises nothing, [S] is what
    [solve_continuous_are(A, B, Q, R)] returned and [K] is [R^-1 B^T S];
    whenever [S] is a (symmetric) solution of the Riccati equation, the law
    [u = - K x] with this [K] minimises, at every state, the running cost
    plus the rate of [x^T S x], with minimum [0]. *)
Theorem gain_from_riccati_solution (g : globals) (w : world) gw :
  run the_notebook g w = (gw, None) ->
  exists a b q r s k,
    [/\ Globals.A gw.1 = Some (Numeric a),
        Globals.B gw.1 = Some (Numeric b),
        Globals.Q gw.1 = Some q,
        Globals.R gw.1 = Some r
      & Globals.S gw.1 = Some s /\ Globals.K gw.1 = Some (Numeric k)] /\
    [/\ solve_continuous_are lib a b q r = inr s,
        k = optimal_gain r b s
      & solves_riccati a b q r s -> s^T = s ->
        forall x u,
          bellman a b q r s x (control_law k x) = 0 /\
          bellman a b q r s x (control_law k x) <= bellman a b q r s x u].
Proof.
case/run_completed=> pd l0 r0 l1 X Y a b c s ri sc w' _ _ _ _ _ _ _ Es Ei _.
have Ek : dot (dot ri (transpose b)) s = optimal_gain (eye F 3) b s.
  by rewrite (inv_eye_inr Ei) /optimal_gain /dot /transpose /eye invmx1.
exists a, b, (eye F 6), (eye F 3), s, (dot (dot ri (transpose b)) s).
split=> //; split=> // ric symS x u; rewrite Ek.
exact: control_law_optimal.
Qed.

(** C2: at the end of a run that raises nothing, [A] and [B] are the
    conversions by [matrix2numpy] of the two matrices [linearize] returned,
    called with [A_and_B=True] on the linearizer that [kane.to_linearizer()]
    built, its [r] set to [specified], at the operating point
    [[equilibrium_dict, parameter_dict]]; [equilibrium_dict] maps every
    coordinate and speed to [0] and has no other key; and, provided
    [linearize] returns the Jacobians of the equations of motion as SymPy
    documents, the two matrices are the Jacobians of the equations of motion
    of [kane] at that operating point. *)
Theorem linearised_at_zero_state (g : globals) (w : world) gw :
  run the_notebook g w = (gw, None) ->
  exists l0 pd l1 X Y a b,
    [/\ to_linearizer lib kane = inr l0 /\
        Globals.parameter_dict g = Some pd,
        linearize lib (setattr l0 "r" (Matrix F opaque specified))
          [:: equilibrium F coordinates speeds; pd] true
        = inr (l1, (X, Y)),
        matrix2numpy lib X = inr a /\ matrix2numpy lib Y = inr b,
        Globals.A gw.1 = Some (Numeric a) /\
        Globals.B gw.1 = Some (Numeric b)
      & Globals.equilibrium_point gw.1
        = Some (zeros F (size (coordinates ++ speeds))) /\
        Globals.equilibrium_dict gw.1
        = Some (equilibrium F coordinates speeds)] /\
    (forall v,
       dict_get (equilibrium F coordinates speeds) v =
       if v \in coordinates ++ speeds then Some 0 else None) /\
    (forall jacobians,
       linearize_returns_jacobians lib kane jacobians ->
       (X, Y) = jacobians kane specified
                  [:: equilibrium F coordinates speeds; pd]).
Proof.
case/run_completed=> pd l0 r0 l1 X Y a b c s ri sc w' Ep El _ Ez Ea Eb _ _ _ _.
exists l0, pd, l1, X, Y, a, b; split=> //; split=> [v|jacobians returns].
  by rewrite /equilibrium /zeros dict_get_zip_nseq take_size.
exact: returns El Ez.
Qed.

(** C5: [inv(eye(3))] is defined and is [eye(3)], the expression
    [dot(dot(inv(R), B.T), S)] with [R = eye(3)] equals [dot(B.T, S)] for
    all [B] and [S], and so does the [K] a run binds. *)
Theorem gain_with_identity_R :
  [/\ inv (eye F 3) = inr (eye F 3),
      forall (n : nat) (b : 'M[F]_(n, 3)) (s : 'M[F]_n),
        gain_expr (eye F 3) b s = inr (dot (transpose b) s),
      forall (g : globals) (w : world) b s,
        Globals.R g = Some (eye F 3) ->
        Globals.B g = Some (Numeric b) ->
        Globals.S g = Some s ->
        assign_K lib g w
        = inr (Globals.with_K (Some (Numeric (dot (transpose b) s))) g, w)
    & forall (g : globals) (w : world) gw,
        run the_notebook g w = (gw, None) ->
        exists b s,
          [/\ Globals.R gw.1 = Some (eye F 3),
              Globals.B gw.1 = Some (Numeric b),
              Globals.S gw.1 = Some s
            & Globals.K gw.1 = Some (Numeric (dot (transpose b) s))]].
Proof.
have one_dot (n : nat) (b : 'M[F]_(n, 3)) :
    dot (eye F 3) (transpose b) = transpose b.
  by rewrite /dot /eye mul1mx.
split; first exact: inv_eye.
- by move=> n b s; rewrite /gain_expr inv_eye /= one_dot.
- move=> g w b s ER EB ES.
  by rewrite /assign_K ER /= inv_eye /= EB /= ES /= one_dot.
move=> g w gw.
case/run_completed=> pd l0 r0 l1 X Y a b c s ri sc w' _ _ _ _ _ _ _ _ Ei _.
by exists b, s; rewrite /= (inv_eye_inr Ei) one_dot.
Qed.

(** C6: the function [controller] of the source takes no parameter and
    returns [None]: every call that returns returns [None], the call
    without arguments does return, and a call with a state and a time
    raises [TypeError]; the [def] statement binds the name to it and a run
    of the whole notebook leaves it bound to it. *)
Theorem controller_returns_None :
  [/\ controller (F := F) (sym := sym) (expr := expr) [::] [::] = inr VNone,
      forall args kwargs v,
        controller (F := F) (sym := sym) (expr := expr) args kwargs = inr v ->
        v = VNone /\ args = [::] /\ kwargs = [::],
      forall x t kwargs u,
        controller (F := F) (sym := sym) (expr := expr) [:: x; t] kwargs
        <> inr u,
      forall (g : globals) (w : world),
        def_controller g w
        = inr (Globals.with_controller (Some (controller (expr := expr))) g,
               w)
    & forall (g : globals) (w : world) gw,
        run the_notebook g w = (gw, None) ->
        Globals.controller gw.1 = Some (controller (expr := expr))].
Proof.
split=> //.
- by move=> [|a args] [|kw kwargs] v //= [<-].
move=> g w gw.
by case/run_completed=> pd l0 r0 l1 X Y a b c s ri sc w' *.
Qed.

(** C7: the arrays [A], [B], [S] and [K] a run binds are the result of one
    library call on the results of library calls, or are made from such
    arrays by transposition, inversion and product. *)
Theorem arrays_are_library_made (g : globals) (w : world) gw :
  run the_notebook g w = (gw, None) ->
  exists a b s k,
    [/\ Globals.A gw.1 = Some (Numeric a) /\ library_made lib a,
        Globals.B gw.1 = Some (Numeric b) /\ library_made lib b,
        Globals.S gw.1 = Some s /\ library_made lib s
      & Globals.K gw.1 = Some (Numeric k) /\ library_made lib k].
Proof.
case/run_completed=> pd l0 r0 l1 X Y a b c s ri sc w' _ _ _ Ez Ea Eb _ Es Ei _.
have made_a : library_made lib a.
  exact: made_by_matrix2numpy (made_state_matrix Ez) Ea.
have made_b : library_made lib b.
  exact: made_by_matrix2numpy (made_input_matrix Ez) Eb.
have made_s : library_made lib s.
  apply: made_by_solve_continuous_are Es => //; exact: made_by_eye.
exists a, b, s, (dot (dot ri (transpose b)) s); split=> //; split=> //.
apply: made_by_dot => //; apply: made_by_dot; last exact: made_by_transpose.
exact: made_by_inv (made_by_eye lib 3) Ei.
Qed.

(** C4: when a library call made by a statement of the notebook raises,
    the statement raises the same exception and the run ends with it, in
    the state the statement started from: nothing catches it and no later
    statement runs. *)
Theorem library_errors_propagate p1 c p2 (g : globals) (w : world) g' w' e :
  the_notebook = p1 ++ c :: p2 ->
  run p1 g w = (g', w', None) ->
  library_raises lib kane c g' w' e ->
  c g' w' = inl e /\ run the_notebook g w = (g', w', Some e).
Proof.
move=> -> run1 raises.
have raised : c g' w' = inl e.
  case: raises => {c g' w' e run1}.
  - by move=> path g0 w0; rewrite /load => ->.
  - by move=> g0 w0 e; rewrite /assign_linearizer => ->.
  - by move=> g0 w0 l ed pd e; rewrite /assign_A_B => -> -> -> /= ->.
  - by move=> g0 w0 X e; rewrite /convert_A => -> /= ->.
  - by move=> g0 w0 Y e; rewrite /convert_B => -> /= ->.
  - by move=> g0 w0 a b e; rewrite /check_controllable => -> -> /= ->.
  - by move=> g0 w0 a b q r e; rewrite /assign_S => -> -> -> -> /= ->.
  - by move=> g0 w0 r e; rewrite /assign_K => -> /= ->.
  - by move=> g0 w0 e; rewrite /call_display_ipython => ->.
by split=> //; rewrite (run_cat _ run1) /run raised.
Qed.

Lemma before_display_silent :
  List.Forall (@silent _ _ _ _) (take 42 the_notebook).
Proof.
rewrite /notebook /=.
do 42![apply: List.Forall_cons; first by silent_statement].
exact: List.Forall_nil.
Qed.

(** C9, as amended: the statements of the notebook themselves write no
    file.  After the statements before [scene.display_ipython()], run as far
    as they get, the world is the world at the start with more on display;
    so is the world at the end of a run that raises; and the world at the
    end of a run that raises nothing is what [display_ipython], called on
    the scene with the trajectories assigned, made of such a world.  What
    that call writes to disk is up to the library. *)
Theorem run_only_displays (g : globals) (w : world) :
  let r := run the_notebook g w in
  [/\ exists out,
        (run (take 42 the_notebook) g w).1.2
        = World (files w) (display w ++ out),
      r.2 <> None ->
      exists out, r.1.2 = World (files w) (display w ++ out)
    & r.2 = None ->
      exists out sc,
        display_ipython lib
          (setattr (Globals.scene g) "states_trajectories" (Trajectory y))
          (World (files w) (display w ++ out))
        = inr (sc, r.1.2)].
Proof.
have [out Ew1] := silent_run before_display_silent g w.
split=> /=; first by exists out.
  have -> : the_notebook
            = take 42 the_notebook ++ [:: call_display_ipython lib] by [].
  case E1: (run (take 42 the_notebook) g w) Ew1 => [[g1 w1] [e|]] /= Ew1.
    by rewrite (run_cat_raised _ E1) /=; exists out.
  rewrite (run_cat _ E1) /run /call_display_ipython.
  by case Ed: (display_ipython _ _ _) => [e|[sc w2]] //= _; exists out.
case E: (run the_notebook g w) => [gw o] /= Eo; rewrite Eo in E.
case: (run_completed E) => pd l0 r0 l1 X Y a b c s ri sc w' _ _ _ _ _ _ _ _ _ Ed.
by eexists; exists sc; exact: Ed.
Qed.

(** C8: the run of a list of statements is a function of the state it
    starts from; and two runs of the notebook that raise nothing and start
    with the same [parameter_dict] (the imports and the library being the
    same) bind the same [equilibrium_dict], [A], [B], [S] and [K], whatever
    else the two sessions held before. *)
Theorem runs_are_deterministic (g1 g2 : globals) (w1 w2 : world) r1 r2 :
  Globals.parameter_dict g1 = Globals.parameter_dict g2 ->
  exec the_notebook g1 w1 r1 -> exec the_notebook g2 w2 r2 ->
  (g1 = g2 -> w1 = w2 -> r1 = r2) /\
  (r1.2 = None -> r2.2 = None -> products r1.1.1 = products r2.1.1).
Proof.
move=> Epd /exec_run <- /exec_run <-; split; first by move=> -> ->.
case E1: (run the_notebook g1 w1) => [gw1 [e1|]] //= _.
case E2: (run the_notebook g2 w2) => [gw2 [e2|]] //= _.
case/run_completed: E1 => pd l0 r0 l1 X Y a b c s ri sc w'.
move=> Ep El _ Ez Ea Eb _ Es Ei _.
case/run_completed: E2 => pd' l0' r0' l1' X' Y' a' b' c' s' ri' sc' w''.
rewrite -Epd Ep El => -[<-] [<-] _; rewrite Ez => -[_ <- <-].
rewrite Ea Eb => -[<-] [<-] _; rewrite Es Ei => -[<-] [<-] _.
by [].
Qed.

(** C10: the statement [linearizer.r = Matrix(specified)] rebinds nothing
    but the attribute [r] of the linearizer: the attribute then holds
    [Matrix(specified)] and every other attribute reads as before; and,
    provided the columns of the input matrix follow [r] as SymPy documents,
    column [j] of the [B] that a run obtains from [linearize] responds to
    the [j]-th entry of [specified]. *)
Theorem assign_r_changes_only_r :
  (forall (g : globals) (w : world) l,
     Globals.linearizer g = Some l ->
     let l' := setattr l "r" (Matrix F opaque specified) in
     [/\ assign_r specified g w
         = inr (Globals.with_linearizer (Some l') g, w),
         getattr l' "r" = Some (Matrix F opaque specified)
       & forall a, a != "r"%string -> getattr l' a = getattr l a]) /\
  (forall column (g : globals) (w : world) gw,
     columns_follow_r lib column ->
     run the_notebook g w = (gw, None) ->
     exists l0 pd l1 X Y b,
       [/\ to_linearizer lib kane = inr l0 /\
           Globals.parameter_dict g = Some pd,
           linearize lib (setattr l0 "r" (Matrix F opaque specified))
             [:: equilibrium F coordinates speeds; pd] true
           = inr (l1, (X, Y)),
           matrix2numpy lib Y = inr b,
           Globals.B gw.1 = Some (Numeric b)
         & forall j : 'I_3,
             col j Y =
             column (without "r" l0)
               [:: equilibrium F coordinates speeds; pd]
               (ohead (drop j specified))]).
Proof.
split.
  move=> g w l El l'; split.
  - by rewrite /assign_r El.
  - by rewrite /l' getattr_setattr eqxx.
  - by move=> a ne; rewrite /l' getattr_setattr eq_sym (negbTE ne).
move=> column g w gw follows.
case/run_completed=> pd l0 r0 l1 X Y a b c s ri sc w' Ep El _ Ez _ Eb _ _ _ _.
exists l0, pd, l1, X, Y, b; split=> // j.
have Er : getattr (setattr l0 "r" (Matrix F opaque specified)) "r"
          = Some (Symbols specified).
  by rewrite getattr_setattr eqxx.
by rewrite (follows _ _ _ _ _ _ Er Ez) without_setattr.
Qed.

(** C3, as amended: the function [controller] of the source does not
    return [- K x]: it takes no parameter, so a call with a state and a time
    raises [TypeError], and the call without arguments returns [None].  The
    law [u = - K x] of the notebook's text, with [K = R^-1 B^T S], [R] the
    identity and [S] a symmetric solution of the Riccati equation, is the
    control that minimises, at every state, the running cost plus the rate
    of [x^T S x]. *)
Theorem controller_is_a_stub :
  [/\ forall x t kwargs,
        controller (F := F) (sym := sym) (expr := expr) [:: x; t] kwargs
        = inl (TypeError "controller() takes 0 positional arguments"),
      controller (F := F) (sym := sym) (expr := expr) [::] [::] = inr VNone
    & forall (n m : nat) (a q s : 'M[F]_n) (b : 'M[F]_(n, m)) x u,
        solves_riccati a b q (eye F m) s -> s^T = s ->
        let k := optimal_gain (eye F m) b s in
        bellman a b q (eye F m) s x (control_law k x) = 0 /\
        bellman a b q (eye F m) s x (control_law k x)
        <= bellman a b q (eye F m) s x u].
Proof.
by split=> // n m a q s b x u ric symS; apply: control_law_optimal.
Qed.

End Runs.

(** ** The small instance *)

Lemma demo_completed (g : Globals.t rat string rat unit)
    (w : world rat string rat unit) :
  Globals.parameter_dict g = Some Demo.parameter_dict ->
  completed Demo.lib Demo.coordinates Demo.speeds Demo.specified tt Demo.y
    g w (Demo.final_globals g, Demo.final_world g w).
Proof.
move=> Ep.
by apply: (@Completed _ _ _ _ _ Demo.lib _ _ _ _ _ g w
            Demo.parameter_dict Demo.linearizer0
            (Symbols Demo.sorted_inputs) Demo.linearizer1
            (Demo.state_matrix Demo.specified)
            (Demo.input_matrix Demo.specified)
            (Demo.state_matrix Demo.specified)
            (Demo.input_matrix Demo.specified)
            true 1%:M (eye rat 3)) => //; exact: inv_eye.
Qed.

Lemma demo_on_disk (d : seq (output rat string rat unit)) :
  all (fun f => dict_get (files (World (files Demo.world0) d)) f != None)
      solution_files.
Proof. by []. Qed.

Lemma demo_run :
  run (demo_notebook Demo.lib) Demo.globals0 Demo.world0 =
  (Demo.final_globals Demo.globals0,
   Demo.final_world Demo.globals0 Demo.world0, None).
Proof.
by apply: completed_run; [exact: (demo_on_disk [::]) | exact: demo_completed].
Qed.

Lemma demo_stale_run :
  run (demo_notebook Demo.lib) Demo.stale_globals Demo.stale_world =
  (Demo.final_globals Demo.stale_globals,
   Demo.final_world Demo.stale_globals Demo.stale_world, None).
Proof.
by apply: completed_run; [exact: (demo_on_disk _) | exact: demo_completed].
Qed.

Lemma demo_state_matrix_sym (rs : seq string) :
  (Demo.state_matrix rs)^T = Demo.state_matrix rs.
Proof.
rewrite /Demo.state_matrix.
apply/matrixP => i j; rewrite !mxE eq_sym; congr (_ * (_ - _)).
by apply: eq_bigr => k _; rewrite !mxE mulrC.
Qed.

Lemma demo_solves_riccati :
  solves_riccati (Demo.state_matrix Demo.specified)
    (Demo.input_matrix Demo.specified) (eye rat 6) (eye rat 3) 1%:M.
Proof.
rewrite /solves_riccati /riccati_rhs /eye invmx1 !mul1mx !mulmx1.
rewrite demo_state_matrix_sym /Demo.state_matrix.
set X := _ *m _.
have half : 2^-1 + 2^-1 = 1 :> rat by [].
by rewrite -addrA -opprD -scalerDl half scale1r addNr.
Qed.

Lemma demo_linearize_returns_jacobians :
  linearize_returns_jacobians Demo.lib tt Demo.jacobians.
Proof.
move=> l0 rs op l' X Y [<-].
by rewrite /= /Demo.linearize_columns /= => -[_ <- <-].
Qed.

Lemma demo_writer_run :
  run (demo_notebook Demo.writer_lib) Demo.globals0 Demo.world0 =
  (Demo.final_globals Demo.globals0,
   World (dict_set (files Demo.world0) "static/index.html"%string
            "<html>"%string)
     (display (Demo.final_world Demo.globals0 Demo.world0)),
   None).
Proof.
apply: completed_run; first exact: (demo_on_disk [::]).
by apply: (@Completed _ _ _ _ _ Demo.writer_lib _ _ _ _ _
            Demo.globals0 Demo.world0
            Demo.parameter_dict Demo.linearizer0
            (Symbols Demo.sorted_inputs) Demo.linearizer1
            (Demo.state_matrix Demo.specified)
            (Demo.input_matrix Demo.specified)
            (Demo.state_matrix Demo.specified)
            (Demo.input_matrix Demo.specified)
            true 1%:M (eye rat 3)) => //; exact: inv_eye.
Qed.

Lemma demo_columns_follow_r : columns_follow_r Demo.lib Demo.column.
Proof.
move=> l op rs l' X Y Er; rewrite /= /Demo.linearize_columns Er.
by case=> _ _ <- j; apply/matrixP => i k; rewrite !mxE.
Qed.

(** The gain of the instance is the Riccati gain, and the law it defines
    is optimal. *)
Lemma gain_from_riccati_solution_witness :
  Globals.K (Demo.final_globals Demo.globals0)
  = Some (Numeric (optimal_gain (eye rat 3)
                     (Demo.input_matrix Demo.specified) 1%:M)) /\
  forall x u,
    bellman (Demo.state_matrix Demo.specified)
      (Demo.input_matrix Demo.specified) (eye rat 6) (eye rat 3) 1%:M x
      (control_law Demo.gain x)
    <= bellman (Demo.state_matrix Demo.specified)
         (Demo.input_matrix Demo.specified) (eye rat 6) (eye rat 3) 1%:M x u.
Proof.
have [a [b [q [r [s [k [[EA EB EQ ER [ES EK]] [_ Ek opt]]]]]]]] :=
  gain_from_riccati_solution demo_run.
move: EA EB EQ ER ES EK Ek opt => /= [<-] [<-] [<-] [<-] [<-] [<-] Ek opt.
split; first by rewrite -Ek.
move=> x u.
have [] // := opt demo_solves_riccati (trmx1 _ _) x u.
Defined.

Lemma linearised_at_zero_state_witness :
  [/\ Globals.A (Demo.final_globals Demo.globals0)
      = Some (Numeric (Demo.state_matrix Demo.specified)),
      dict_get (equilibrium rat Demo.coordinates Demo.speeds) "omega2"%string
      = Some 0
    & (Demo.state_matrix Demo.specified, Demo.input_matrix Demo.specified)
      = Demo.jacobians tt Demo.specified
          [:: equilibrium rat Demo.coordinates Demo.speeds;
              Demo.parameter_dict]].
Proof.
have [l0 [pd [l1 [X [Y [a [b [[[El Ep] Ez _ _ _] [zero jac]]]]]]]]] :=
  linearised_at_zero_state demo_run.
split; [by [] | by rewrite zero |].
move: El Ep Ez jac => /= [<-] [<-]; rewrite /Demo.linearize_columns /=.
case=> _ <- <- jac.
exact: jac demo_linearize_returns_jacobians.
Defined.

(** The function of the source, called with a state and a time, does not
    return what the law [u = - K x] gives. *)
Lemma controller_does_not_return_lqr_law :
  controller (F := rat) (sym := string) (expr := rat)
    [:: VArray (zeros rat 6); VFloat 0] [::]
  <> inr (@lqr_output rat string rat Demo.gain (zeros rat 6)).
Proof. by []. Qed.

Lemma controller_is_a_stub_witness :
  bellman (Demo.state_matrix Demo.specified)
    (Demo.input_matrix Demo.specified) (eye rat 6) (eye rat 3) 1%:M
    (const_mx 1)
    (control_law
       (optimal_gain (eye rat 3) (Demo.input_matrix Demo.specified) 1%:M)
       (const_mx 1))
  = 0.
Proof.
have [_ _ opt] := controller_is_a_stub rat string rat.
by have [] := opt _ _ _ _ _ _ (const_mx 1) 0 demo_solves_riccati (trmx1 _ _).
Defined.

(** With a library whose [to_linearizer] raises, the run ends with that
    exception, with the globals and the display as the statement before
    left them. *)
Lemma library_errors_propagate_witness :
  run (demo_notebook Demo.failing_lib) Demo.globals0 Demo.world0 =
  (Demo.globals_at_linearizer, Demo.world_at_linearizer,
   Some (LibraryError "to_linearizer")).
Proof.
have [] // :=
  @library_errors_propagate _ _ _ _ _ Demo.failing_lib
    Demo.coordinates Demo.speeds Demo.specified tt Demo.y
    (take 16 (demo_notebook Demo.failing_lib))
    (assign_linearizer Demo.failing_lib tt)
    (drop 17 (demo_notebook Demo.failing_lib))
    Demo.globals0 Demo.world0
    Demo.globals_at_linearizer Demo.world_at_linearizer
    (LibraryError "to_linearizer").
exact: raises_to_linearizer.
Defined.

Lemma gain_with_identity_R_witness :
  Globals.K (Demo.final_globals Demo.globals0)
  = Some (Numeric (dot (transpose (Demo.input_matrix Demo.specified)) 1%:M)).
Proof.
have [_ _ _ at_end] := gain_with_identity_R Demo.lib Demo.coordinates
                         Demo.speeds Demo.specified tt Demo.y.
have [b [s [_ EB ES ->]]] := at_end _ _ _ demo_run.
by move: EB ES => /= [<-] [<-].
Defined.

Lemma controller_returns_None_witness :
  Globals.controller (Demo.final_globals Demo.globals0)
  = Some (controller (F := rat) (sym := string) (expr := rat)).
Proof.
have [_ _ _ _ at_end] := controller_returns_None Demo.lib Demo.coordinates
                           Demo.speeds Demo.specified tt Demo.y.
exact: at_end demo_run.
Defined.

Lemma arrays_are_library_made_witness : library_made Demo.lib Demo.gain.
Proof.
have [a [b [s [k [_ _ _ [EK made]]]]]] := arrays_are_library_made demo_run.
by move: EK made => /= [<-].
Defined.

(** A stale [K] and a used display change nothing in what the run
    produces. *)
Lemma runs_are_deterministic_witness :
  products (Demo.final_globals Demo.globals0)
  = products (Demo.final_globals Demo.stale_globals).
Proof.
have [_ same] :=
  @runs_are_deterministic _ _ _ _ _ Demo.lib Demo.coordinates Demo.speeds
    Demo.specified tt Demo.y Demo.globals0 Demo.stale_globals
    Demo.world0 Demo.stale_world _ _ (erefl _)
    (proj2 (exec_run _ _ _ _) demo_run)
    (proj2 (exec_run _ _ _ _) demo_stale_run).
exact: same.
Defined.

(** With a library whose [display_ipython] writes a file, the run raises
    nothing and leaves a file on disk that was not there. *)
Lemma display_ipython_writes_a_file :
  let r := run (demo_notebook Demo.writer_lib) Demo.globals0 Demo.world0 in
  r.2 = None /\ files r.1.2 <> files Demo.world0.
Proof. by rewrite demo_writer_run; split=> // /(congr1 size). Qed.

Lemma run_only_displays_witness :
  exists out,
    Demo.final_world Demo.globals0 Demo.world0
    = show
        (Rendered
           (setattr Demo.scene0 "states_trajectories" (Trajectory Demo.y)))
        (World (files Demo.world0) (display Demo.world0 ++ out)).
Proof.
have [_ _ at_end] :=
  @run_only_displays _ _ _ _ _ Demo.lib Demo.coordinates Demo.speeds
    Demo.specified tt Demo.y Demo.globals0 Demo.world0.
move: at_end; rewrite demo_run => /(_ (erefl _)) [out [sc [_ shown]]].
by exists out; rewrite /Demo.final_world /show /= -shown.
Defined.

(** In the instance the library orders the inputs ankle, hip, knee; after
    the assignment the columns follow ankle, knee, hip. *)
Lemma assign_r_changes_only_r_witness :
  let B := Demo.input_matrix Demo.specified in
  let response :=
    Demo.column (without "r" Demo.linearizer0)
      [:: equilibrium rat Demo.coordinates Demo.speeds; Demo.parameter_dict]
  in
  [/\ col ord0 B = response (Some "T_ankle"%string),
      col (lift ord0 ord0) B = response (Some "T_knee"%string)
    & col ord_max B = response (Some "T_hip"%string)].
Proof.
have [_ at_end] :=
  @assign_r_changes_only_r _ _ _ _ _ Demo.lib Demo.coordinates Demo.speeds
    Demo.specified tt Demo.y.
have [l0 [pd [l1 [X [Y [b [[El Ep] Ez _ _ cols]]]]]]] :=
  at_end _ _ _ _ demo_columns_follow_r demo_run.
move: El Ep Ez cols => /= [<-] [<-]; rewrite /Demo.linearize_columns /=.
case=> _ _ <- cols.
by split; [exact: (cols ord0) | exact: (cols (lift ord0 ord0))
          | exact: (cols ord_max)].
Defined.

(** * Further properties of the statements *)

(** ** Python dictionaries built by [dict(zip(...))] *)
Section DictShape.

Variables (K : eqType) (V : Type).
Implicit Types (d : dict K V) (k : K) (v : V).

Lemma dict_set_new d k v :
  k \notin [seq kv.1 | kv <- d] -> dict_set d k v = rcons d (k, v).
Proof.
elim: d => [|[k0 v0] d IH] //=; rewrite inE negb_or eq_sym => /andP [ne nin].
by rewrite (negbTE ne) IH.
Qed.

Lemma dict_set_keys d k v :
  [seq kv.1 | kv <- dict_set d k v] =
  if k \in [seq kv.1 | kv <- d] then [seq kv.1 | kv <- d]
  else rcons [seq kv.1 | kv <- d] k.
Proof.
elim: d => [|[k0 v0] d IH] //=; rewrite inE eq_sym.
by case: (eqVneq k0 k) => [->|ne] //=; rewrite IH; case: ifP.
Qed.

Lemma dict_set_uniq d k v :
  uniq [seq kv.1 | kv <- d] -> uniq [seq kv.1 | kv <- dict_set d k v].
Proof.
move=> uniq_d; rewrite dict_set_keys; case: ifPn => // nin.
by rewrite rcons_uniq nin.
Qed.

Lemma dict_of_pairs_uniq (ps : seq (K * V)) :
  uniq [seq kv.1 | kv <- dict_of_pairs ps].
Proof.
rewrite /dict_of_pairs.
have: uniq [seq kv.1 | kv <- ([::] : dict K V)] by [].
elim: ps [::] => [|[k v] ps IH] d uniq_d //=.
by apply: IH; apply: dict_set_uniq.
Qed.

Lemma foldl_dict_set_distinct (ps : seq (K * V)) d :
  uniq ([seq kv.1 | kv <- d] ++ [seq kv.1 | kv <- ps]) ->
  foldl (fun d kv => dict_set d kv.1 kv.2) d ps = d ++ ps.
Proof.
elim: ps d => [|[k v] ps IH] d /=; first by rewrite !cats0.
move=> uniq_all; have := uniq_all; rewrite cat_uniq /= negb_or.
case/and3P=> _ /andP [nin _] _.
by rewrite dict_set_new // IH ?cat_rcons // map_rcons cat_rcons.
Qed.

(** With distinct keys, [dict(pairs)] is the list of the pairs. *)
Lemma dict_of_pairs_distinct (ps : seq (K * V)) :
  uniq [seq kv.1 | kv <- ps] -> dict_of_pairs ps = ps.
Proof. by move=> uniq_ps; rewrite /dict_of_pairs foldl_dict_set_distinct. Qed.

Lemma dict_get_keys d k :
  (k \in [seq kv.1 | kv <- d]) = isSome (dict_get d k).
Proof.
elim: d => [|[k0 v0] d IH] //=; rewrite inE eq_sym.
by case: (eqVneq k0 k).
Qed.

Lemma dict_set_same d k v : dict_get d k = Some v -> dict_set d k v = d.
Proof.
elim: d => [|[k0 v0] d IH] //=.
by case: (eqVneq k0 k) => [_ [->]|_ /IH ->].
Qed.

End DictShape.

Section EquilibriumDict.

Variable F : realFieldType.
Variable sym : eqType.
Variables coordinates speeds : seq sym.

(** X1: [equilibrium_dict] has one entry per distinct coordinate or speed:
    its keys are duplicate-free and their number is the number of distinct
    symbols of [coordinates + speeds]; when these symbols are pairwise
    distinct, the dictionary is the list of the pairs (symbol, 0) in the
    order of [coordinates + speeds], one per entry of
    [equilibrium_point]. *)
Theorem equilibrium_dict_shape :
  [/\ uniq [seq kv.1 | kv <- equilibrium F coordinates speeds],
      size (equilibrium F coordinates speeds)
      = size (undup (coordinates ++ speeds))
    & uniq (coordinates ++ speeds) ->
      equilibrium F coordinates speeds
      = [seq (k, 0) | k <- coordinates ++ speeds] /\
      size (equilibrium F coordinates speeds)
      = size (zeros F (size (coordinates ++ speeds)))].
Proof.
set keys := [seq kv.1 | kv <- equilibrium F coordinates speeds].
have uniq_keys : uniq keys by exact: dict_of_pairs_uniq.
have mem_keys : keys =i coordinates ++ speeds.
  move=> k; rewrite /keys dict_get_keys /equilibrium /zeros.
  by rewrite dict_get_zip_nseq take_size; case: ifP.
split=> //.
  rewrite -(size_map (fun kv => kv.1)) -/keys.
  apply/perm_size/uniq_perm => // [|k]; first exact: undup_uniq.
  by rewrite mem_keys mem_undup.
move=> distinct.
have -> : equilibrium F coordinates speeds
          = [seq (k, 0) | k <- coordinates ++ speeds].
  rewrite /equilibrium /zeros zip_nseq take_size dict_of_pairs_distinct //.
  by rewrite -map_comp map_id_in.
by rewrite size_map size_nseq.
Qed.

End EquilibriumDict.

(** ** The assignment of [linearizer.r] and the comparison before it *)
Section InputOrder.

Variable F : realFieldType.
Variables (sym : eqType) (expr opaque : Type).
Variable specified : seq sym.

Notation globals := (Globals.t F sym expr opaque).
Notation world := (world F sym expr opaque).

Lemma with_linearizer_same (g : globals) l :
  Globals.linearizer g = Some l -> Globals.with_linearizer (Some l) g = g.
Proof. by case: g => /= *; congr Globals.Make. Qed.

(** X2: after [linearizer.r = Matrix(specified)] the comparison
    [linearizer.r == Matrix(specified)] shows [True] and running the
    assignment again changes nothing; and in a session where the comparison
    shows [True] the assignment changes nothing at all. *)
Theorem assign_r_and_compare_r (g : globals) (w : world) l :
  Globals.linearizer g = Some l ->
  let g1 :=
    Globals.with_linearizer
      (Some (setattr l "r" (Matrix F opaque specified))) g in
  [/\ assign_r specified g w = inr (g1, w),
      compare_r specified g1 w = inr (g1, show (Out (VBool true)) w),
      assign_r specified g1 w = inr (g1, w)
    & compare_r specified g w = inr (g, show (Out (VBool true)) w) ->
      assign_r specified g w = inr (g, w)].
Proof.
move=> El g1.
have Er1 : getattr (setattr l "r" (Matrix F opaque specified)) "r"
           = Some (Matrix F opaque specified).
  by rewrite getattr_setattr eqxx.
split.
- by rewrite /assign_r El.
- by rewrite /compare_r /= /read_attr Er1 /= eqxx.
- rewrite /assign_r /= /setattr dict_set_same //.
- rewrite /compare_r /assign_r El /= /read_attr.
  case Er: (getattr l "r") => [r0|] //= shown.
  have /= := congr1 (fun r => if r is inr gw then display gw.2 else [::]) shown.
  case/rcons_inj=> same.
  case: r0 Er same {shown} => // s Er /eqP <-.
  by rewrite /setattr dict_set_same // with_linearizer_same.
Qed.

End InputOrder.

(** ** How a run of the notebook can end *)
Section RunOutcomes.

Variable F : realFieldType.
Variables (sym : eqType) (expr opaque KanesMethod : Type).
Variable lib : Library F sym expr opaque KanesMethod.
Variables (coordinates speeds specified : seq sym).
Variable kane : KanesMethod.
Variable y : seq (seq F).

Notation globals := (Globals.t F sym expr opaque).
Notation world := (world F sym expr opaque).
Notation the_notebook :=
  (notebook lib coordinates speeds specified kane y).

Lemma run_cons c (p : seq (stmt F sym expr opaque)) (g : globals)
    (w : world) :
  run (c :: p) g w =
  match c g w with
  | inl e => (g, w, Some e)
  | inr gw => run p gw.1 gw.2
  end.
Proof. by []. Qed.

Lemma run_cat_ok (p1 p2 : seq (stmt F sym expr opaque)) (g : globals)
    (w : world) gw :
  run (p1 ++ p2) g w = (gw, None) ->
  exists g1 w1, run p1 g w = (g1, w1, None) /\ run p2 g1 w1 = (gw, None).
Proof.
elim: p1 g w => [|c p1 IH] g w /=; first by exists g, w.
by case: (c g w) => [e|[g1 w1]] //=; apply: IH.
Qed.

(** A run of statements that only add to the display has passed every
    [%load] among them, so the files they name are on disk. *)
Lemma loads_found (p : seq (stmt F sym expr opaque)) :
  List.Forall (@silent F sym expr opaque) p ->
  forall (g : globals) (w : world) gw path,
    run p g w = (gw, None) ->
    List.In (load path) p ->
    dict_get (files w) path != None.
Proof.
elim=> [|c p0 silent_c _ IH] g w gw path //=.
case Ec: (c g w) => [e|[g1 w1]] //= run_p [is_load|in_p].
  by move: Ec; rewrite is_load /load; case: (dict_get _ _).
have [out world1] := silent_c _ _ _ _ Ec.
by have := IH _ _ _ _ run_p in_p; rewrite world1.
Qed.

(** X3: a run raises nothing exactly when the five solution files the
    [%load] cells name are on disk, [parameter_dict] is bound, the
    linearizer has an attribute [r] and every library call returns; the
    globals and the display at the end are then the ones [completed]
    lists. *)
Theorem run_completes_iff (g : globals) (w : world) gw :
  run the_notebook g w = (gw, None) <->
  all (fun f => dict_get (files w) f != None) solution_files /\
  completed lib coordinates speeds specified kane y g w gw.
Proof.
split=> [ok|[on_disk done]]; last exact: completed_run.
split; last exact: run_completed.
have split_nb : the_notebook
                = take 42 the_notebook ++ [:: call_display_ipython lib].
  by [].
move: ok; rewrite split_nb => /run_cat_ok [g1 [w1 [ok _]]].
have found := loads_found (before_display_silent _ _ _ _ _ _) ok.
apply/allP=> path; rewrite !inE.
by do 4![case/orP; first by move/eqP->; apply: found; rewrite /=; tauto];
   move/eqP->; apply: found; rewrite /=; tauto.
Qed.

Local Arguments run : simpl never.

Lemma missing_None (w : world) path :
  missing w path -> dict_get (files w) path = None.
Proof. by move/eqP. Qed.

Lemma found_Some (w : world) path :
  ~~ missing w path -> exists src, dict_get (files w) path = Some src.
Proof. by rewrite /missing; case: (dict_get _ _) => [src|] // _; exists src. Qed.

Ltac through_linearizer E1 El Er :=
  rewrite /notebook; do 15![rewrite run_cons /=];
  rewrite run_cons /load /= E1 /=;
  rewrite run_cons /assign_linearizer El /=;
  rewrite run_cons /compare_r /= /read_attr Er /=;
  do 2![rewrite run_cons /=].

Ltac through_linearize Ep Ez :=
  rewrite run_cons /assign_A_B /= Ep /= Ez /=.

Ltac through_conversion Ea Eb :=
  rewrite run_cons /convert_A /= Ea /=;
  rewrite run_cons /convert_B /= Eb /=;
  do 3![rewrite run_cons /=].

Ltac through_solve Ec Es :=
  rewrite run_cons /check_controllable /= Ec /=;
  do 5![rewrite run_cons /=];
  rewrite run_cons /assign_S /= Es /=;
  rewrite run_cons /assign_K /= inv_eye /=;
  do 3![rewrite run_cons /=].

(** The exception a run ends with is one of the listed ones. *)
Lemma raised_notebook_error (g : globals) (w : world) g' w' e :
  run the_notebook g w = (g', w', Some e) ->
  notebook_error lib coordinates speeds specified kane y g w e.
Proof.
rewrite /notebook; do 15![rewrite run_cons /=].
rewrite run_cons /load /=.
case E1: (dict_get (files w) _) => [src1|] /=; last first.
  by case=> _ _ <-; apply: missing_first_solution; rewrite /missing E1.
have F1 : ~~ missing w "exercise_solutions/n09_control_parameter-dict.py".
  by rewrite /missing E1.
rewrite run_cons /assign_linearizer.
case El: (to_linearizer lib kane) => [e0|l0] /=.
  by case=> _ _ <-; apply: to_linearizer_raised El.
rewrite run_cons /compare_r /= /read_attr.
case Er: (getattr l0 "r") => [r0|] /=; last first.
  by case=> _ _ <-; apply: linearizer_without_r El Er.
have built : linearizer_built lib kane w l0 r0 by split.
do 2![rewrite run_cons /=].
rewrite run_cons /assign_A_B /=.
case Ep: (Globals.parameter_dict g) => [pd|] /=; last first.
  by case=> _ _ <-; apply: unbound_parameter_dict built Ep.
case Ez: (linearize _ _ _ _) => [e0|[l1 [X Y]]] /=.
  by case=> _ _ <-; apply: linearize_raised built Ep Ez.
have lin : linearized lib coordinates speeds specified kane g w l0 r0 pd l1 X Y.
  by split.
rewrite run_cons /convert_A /=.
case Ea: (matrix2numpy lib X) => [e0|a] /=.
  by case=> _ _ <-; apply: matrix2numpy_A_raised lin Ea.
rewrite run_cons /convert_B /=.
case Eb: (matrix2numpy lib Y) => [e0|b] /=.
  by case=> _ _ <-; apply: matrix2numpy_B_raised lin Ea Eb.
have conv :
    converted lib coordinates speeds specified kane g w l0 r0 pd l1 X Y a b.
  by split.
do 3![rewrite run_cons /=].
rewrite run_cons /check_controllable /=.
case Ec: (controllable _ _ _) => [e0|c] /=.
  by case=> _ _ <-; apply: controllable_raised conv Ec.
do 5![rewrite run_cons /=].
rewrite run_cons /assign_S /=.
case Es: (solve_continuous_are _ _ _ _ _) => [e0|s] /=.
  by case=> _ _ <-; apply: solve_continuous_are_raised conv Ec Es.
have sol :
    solved lib coordinates speeds specified kane g w l0 r0 pd l1 X Y a b c s.
  by split.
rewrite run_cons /assign_K /= inv_eye /=.
do 3![rewrite run_cons /=].
rewrite run_cons /=.
case E2: (dict_get (files w) _) => [src2|] /=; last first.
  case=> _ _ <-.
  apply: (missing_later_solution y (before := take 0 later_solutions)
            (after := drop 1 later_solutions) sol) => //.
  by rewrite /missing E2.
rewrite run_cons /=.
case E3: (dict_get (files w) _) => [src3|] /=; last first.
  case=> _ _ <-.
  apply: (missing_later_solution y (before := take 1 later_solutions)
            (after := drop 2 later_solutions) sol) => //.
    by rewrite /= /missing E2.
  by rewrite /missing E3.
rewrite run_cons /=.
case E4: (dict_get (files w) _) => [src4|] /=; last first.
  case=> _ _ <-.
  apply: (missing_later_solution y (before := take 2 later_solutions)
            (after := drop 3 later_solutions) sol) => //.
    by rewrite /= /missing E2 E3.
  by rewrite /missing E4.
rewrite run_cons /=.
case E5: (dict_get (files w) _) => [src5|] /=; last first.
  case=> _ _ <-.
  apply: (missing_later_solution y (before := take 3 later_solutions)
            (after := drop 4 later_solutions) sol) => //.
    by rewrite /= /missing E2 E3 E4.
  by rewrite /missing E5.
rewrite run_cons /=.
rewrite run_cons /call_display_ipython /= /show /= -cats1 !cat_rcons.
case Ed: (display_ipython _ _ _) => [e0|[sc w2]] /=; last by [].
case=> _ _ <-; apply: display_ipython_raised sol _ Ed.
by rewrite /= /missing E2 E3 E4 E5.
Qed.

(** Each of the listed ways does end the run, with that exception. *)
Lemma notebook_error_raised (g : globals) (w : world) e :
  notebook_error lib coordinates speeds specified kane y g w e ->
  exists g' w', run the_notebook g w = (g', w', Some e).
Proof.
case=> {e}.
- move/missing_None=> E1; do 2!eexists.
  rewrite /notebook; do 15![rewrite run_cons /=].
  by rewrite run_cons /load /= E1.
- move=> e /found_Some [src1 E1] El; do 2!eexists.
  rewrite /notebook; do 15![rewrite run_cons /=].
  rewrite run_cons /load /= E1 /=.
  by rewrite run_cons /assign_linearizer El.
- move=> l0 /found_Some [src1 E1] El Er; do 2!eexists.
  rewrite /notebook; do 15![rewrite run_cons /=].
  rewrite run_cons /load /= E1 /=.
  rewrite run_cons /assign_linearizer El /=.
  by rewrite run_cons /compare_r /= /read_attr Er.
- move=> l0 r0 [/found_Some [src1 E1] El Er] Ep; do 2!eexists.
  through_linearizer E1 El Er.
  by rewrite run_cons /assign_A_B /= Ep.
- move=> l0 r0 pd e [/found_Some [src1 E1] El Er] Ep Ez; do 2!eexists.
  through_linearizer E1 El Er.
  by rewrite run_cons /assign_A_B /= Ep /= Ez.
- move=> l0 r0 pd l1 X Y e [[/found_Some [src1 E1] El Er] Ep Ez] Ea.
  do 2!eexists.
  through_linearizer E1 El Er; through_linearize Ep Ez.
  by rewrite run_cons /convert_A /= Ea.
- move=> l0 r0 pd l1 X Y a e [[/found_Some [src1 E1] El Er] Ep Ez] Ea Eb.
  do 2!eexists.
  through_linearizer E1 El Er; through_linearize Ep Ez.
  rewrite run_cons /convert_A /= Ea /=.
  by rewrite run_cons /convert_B /= Eb.
- move=> l0 r0 pd l1 X Y a b e.
  move=> [[[/found_Some [src1 E1] El Er] Ep Ez] Ea Eb] Ec; do 2!eexists.
  through_linearizer E1 El Er; through_linearize Ep Ez.
  through_conversion Ea Eb.
  by rewrite run_cons /check_controllable /= Ec.
- move=> l0 r0 pd l1 X Y a b c e.
  move=> [[[/found_Some [src1 E1] El Er] Ep Ez] Ea Eb] Ec Es; do 2!eexists.
  through_linearizer E1 El Er; through_linearize Ep Ez.
  through_conversion Ea Eb.
  rewrite run_cons /check_controllable /= Ec /=.
  do 5![rewrite run_cons /=].
  by rewrite run_cons /assign_S /= Es.
- move=> l0 r0 pd l1 X Y a b c s before path after.
  move=> [[[[/found_Some [src1 E1] El Er] Ep Ez] Ea Eb] Ec Es].
  move=> Elater found_before /missing_None missing_path; do 2!eexists.
  through_linearizer E1 El Er; through_linearize Ep Ez.
  through_conversion Ea Eb; through_solve Ec Es.
  case: before Elater found_before => [|f2 [|f3 [|f4 [|f5 before]]]] //=.
  + by case=> Ef _ _; rewrite run_cons /= Ef missing_path.
  + case=> <- Ef _; rewrite orbF => /found_Some [src2 E2].
    rewrite run_cons /= E2 /=.
    by rewrite run_cons /= Ef missing_path.
  + case=> <- <- Ef _; rewrite orbF negb_or.
    case/andP=> /found_Some [src2 E2] /found_Some [src3 E3].
    rewrite run_cons /= E2 /= run_cons /= E3 /=.
    by rewrite run_cons /= Ef missing_path.
  + case=> <- <- <- Ef _; rewrite orbF !negb_or.
    case/and3P=> /found_Some [src2 E2] /found_Some [src3 E3].
    move=> /found_Some [src4 E4].
    rewrite run_cons /= E2 /= run_cons /= E3 /= run_cons /= E4 /=.
    by rewrite run_cons /= Ef missing_path.
  + by case: before.
- move=> l0 r0 pd l1 X Y a b c s e.
  move=> [[[[/found_Some [src1 E1] El Er] Ep Ez] Ea Eb] Ec Es].
  rewrite /= orbF !negb_or.
  case/and4P=> /found_Some [src2 E2] /found_Some [src3 E3].
  move=> /found_Some [src4 E4] /found_Some [src5 E5] Ed; do 2!eexists.
  through_linearizer E1 El Er; through_linearize Ep Ez.
  through_conversion Ea Eb; through_solve Ec Es.
  rewrite run_cons /= E2 /= run_cons /= E3 /= run_cons /= E4 /=.
  rewrite run_cons /= E5 /= run_cons /=.
  rewrite run_cons /call_display_ipython /= /show /= -cats1 !cat_rcons.
  by rewrite Ed.
Qed.

(** X4: a run of the notebook ends with the exception [e] exactly in one of
    these ways: a [%load] names a file that is missing ([ValueError]),
    [kane.to_linearizer()] raises [e] or returns a linearizer without [r]
    ([AttributeError]), [parameter_dict] is unbound when [linearize] is
    called ([NameError]), or [linearize], [matrix2numpy], [controllable],
    [solve_continuous_are] or [display_ipython] raises [e] on the arguments
    the notebook passes to it, every statement before having returned.  No
    name the notebook binds is read before it is bound, [A] and [B] are
    symbolic when converted and numeric when used, and [inv(R)] never
    raises. *)
Theorem run_raises_only (g : globals) (w : world) e :
  (exists g' w', run the_notebook g w = (g', w', Some e)) <->
  notebook_error lib coordinates speeds specified kane y g w e.
Proof.
split=> [[g' [w']]|]; first exact: raised_notebook_error.
exact: notebook_error_raised.
Qed.

(** X5: as the notebook ships, with the first exercise unanswered,
    [parameter_dict] is unbound: when the first solution file is on disk
    and the library builds a linearizer with an attribute [r], the run
    stops at the call of [linearize] with [NameError], having bound
    [equilibrium_point] and [equilibrium_dict], reordered the inputs of the
    linearizer and shown five outputs; [A], [B], [Q], [R], [S], [K] and
    [controller] are as they were. *)
Theorem shipped_run_stops_at_linearize (g : globals) (w : world) src l0 r0 :
  Globals.parameter_dict g = None ->
  dict_get (files w)
    "exercise_solutions/n09_control_parameter-dict.py"%string
  = Some src ->
  to_linearizer lib kane = inr l0 ->
  getattr l0 "r" = Some r0 ->
  run the_notebook g w =
  (Globals.with_linearizer
     (Some (setattr l0 "r" (Matrix F opaque specified)))
     (Globals.with_equilibrium_dict
        (Some (equilibrium F coordinates speeds))
        (Globals.with_equilibrium_point
           (Some (zeros F (size (coordinates ++ speeds)))) g)),
   World (files w)
     (display w ++
      [:: Out (VStr "%.3f");
          Out (VArray (zeros F (size (coordinates ++ speeds))));
          Out (VDict (equilibrium F coordinates speeds));
          Out (VBool (attr_eq r0 (Matrix F opaque specified)));
          Help "linearizer.linearize"]),
   Some (NameError "parameter_dict")).
Proof.
move=> Ep E1 El Er.
rewrite /notebook; do 15![rewrite run_cons /=].
rewrite run_cons /load /= E1 /=.
rewrite run_cons /assign_linearizer El /=.
rewrite run_cons /compare_r /= /read_attr Er /=.
do 2![rewrite run_cons /=].
rewrite run_cons /assign_A_B /= Ep /=.
by congr (_, _, _); rewrite /show /= -cats1 !cat_rcons.
Qed.

End RunOutcomes.

(** ** The closed loop *)
Section ClosedLoop.

Variable F : realFieldType.
Variables n m : nat.
Implicit Types (A Q S : 'M[F]_n) (B : 'M[F]_(n, m)) (R : 'M[F]_m).
Implicit Types (x : 'cV[F]_n) (u : 'cV[F]_m).

Lemma square_eq0 (v : 'cV[F]_m) : (v^T *m 1%:M *m v) 0 0 = 0 -> v = 0.
Proof.
rewrite mulmx1 mxE => sum0; apply/colP => i; rewrite [RHS]mxE.
have ge0 (j : 'I_m) : true -> 0 <= v^T 0 j * v j 0.
  by rewrite mxE -expr2 sqr_ge0.
have := psumr_eq0P ge0 sum0 (i := i) isT.
by rewrite mxE -expr2 => /eqP; rewrite sqrf_eq0 => /eqP.
Qed.

(** With [R] the identity, [u = - K x] is the only control whose cost
    beyond the decrease of [x^T S x] vanishes. *)
Lemma control_law_unique A B Q S x u :
  solves_riccati A B Q (eye F m) S -> S^T = S ->
  bellman A B Q (eye F m) S x u = 0 <->
  u = control_law (optimal_gain (eye F m) B S) x.
Proof.
move=> ric symS.
have symR : (eye F m)^T = eye F m by rewrite /eye trmx1.
have unitR : eye F m \in unitmx by rewrite /eye unitmx1.
rewrite bellman_square //; split=> [/square_eq0 /eqP|->].
  by rewrite subr_eq0 => /eqP.
by rewrite subrr trmx0 !mul0mx mxE.
Qed.

(** The closed-loop matrix [A - B K] satisfies the Lyapunov equation of
    [S] with the weight [Q + K^T R K]. *)
Lemma closed_loop_lyapunov A B Q R S :
  solves_riccati A B Q R S -> S^T = S -> R^T = R -> R \in unitmx ->
  let K := optimal_gain R B S in
  (A - B *m K)^T *m S + S *m (A - B *m K) = - (Q + K^T *m R *m K).
Proof.
move=> ric symS symR unitR K.
have eQ : - (S *m A) - A^T *m S + S *m B *m invmx R *m B^T *m S = Q.
  by move/esym/eqP: ric; rewrite /riccati_rhs subr_eq0 => /eqP.
rewrite /K /optimal_gain -eQ.
rewrite !trmx_add !linearN /= !trmx_mul trmx_inv trmxK symS symR.
rewrite !mulmxDl !mulmxDr !mulNmx !mulmxN -!mulmxA !mulKVmx //.
by apply/matrixP => i j; rewrite !mxE; ring.
Qed.

End ClosedLoop.

Section ClosedLoopOfTheRun.

Variable F : realFieldType.
Variables (sym : eqType) (expr opaque KanesMethod : Type).
Variable lib : Library F sym expr opaque KanesMethod.
Variables (coordinates speeds specified : seq sym).
Variable kane : KanesMethod.
Variable y : seq (seq F).

Notation globals := (Globals.t F sym expr opaque).
Notation world := (world F sym expr opaque).
Notation the_notebook :=
  (notebook lib coordinates speeds specified kane y).

(** The arrays a run that raises nothing has bound, with [Q] and [R] the
    identity and [K = R^-1 B^T S]. *)
Lemma run_binds (g : globals) (w : world) gw :
  run the_notebook g w = (gw, None) ->
  exists a b s,
    [/\ Globals.A gw.1 = Some (Numeric a),
        Globals.B gw.1 = Some (Numeric b),
        Globals.S gw.1 = Some s
      & Globals.K gw.1 = Some (Numeric (optimal_gain (eye F 3) b s))].
Proof.
move=> ok; case: (run_completed ok).
move=> pd l0 r0 l1 X Y a b c s ri sc w' _ _ _ _ _ _ _ _ Ei _.
exists a, b, s; split=> //=.
have -> : ri = eye F 3 by exact: inv_eye_inr.
by rewrite /optimal_gain /dot /transpose /eye invmx1.
Qed.

(** X6: for the [A], [B], [S] and [K] a run binds, with [Q = eye(6)] and
    [R = eye(3)]: whenever [S] is a symmetric solution of the Riccati
    equation, [u = - K x] is the only control at which the running cost
    plus the rate of [x^T S x] is zero. *)
Theorem lqr_law_is_the_unique_minimiser (g : globals) (w : world) gw :
  run the_notebook g w = (gw, None) ->
  exists a b s k,
    [/\ Globals.A gw.1 = Some (Numeric a),
        Globals.B gw.1 = Some (Numeric b),
        Globals.S gw.1 = Some s
      & Globals.K gw.1 = Some (Numeric k)] /\
    (solves_riccati a b (eye F 6) (eye F 3) s -> s^T = s ->
     forall x u,
       bellman a b (eye F 6) (eye F 3) s x u = 0 <-> u = control_law k x).
Proof.
case/run_binds=> a [b [s [EA EB ES EK]]].
exists a, b, s, (optimal_gain (eye F 3) b s); split=> // ric symS x u.
exact: control_law_unique.
Qed.

(** X7: for the same arrays, whenever [S] is a symmetric solution of the
    Riccati equation, the closed-loop matrix [A - B K] satisfies the
    Lyapunov equation [(A - B K)^T S + S (A - B K) = - (Q + K^T R K)], and
    along [x' = (A - B K) x] the value [x^T S x] never increases and is
    stationary only at [x = 0]. *)
Theorem closed_loop_decreases_value (g : globals) (w : world) gw :
  run the_notebook g w = (gw, None) ->
  exists a b s k,
    [/\ Globals.A gw.1 = Some (Numeric a),
        Globals.B gw.1 = Some (Numeric b),
        Globals.S gw.1 = Some s
      & Globals.K gw.1 = Some (Numeric k)] /\
    (solves_riccati a b (eye F 6) (eye F 3) s -> s^T = s ->
     [/\ (a - b *m k)^T *m s + s *m (a - b *m k)
         = - (eye F 6 + k^T *m eye F 3 *m k),
         forall x, value_rate a b s x (control_law k x) <= 0
       & forall x, value_rate a b s x (control_law k x) = 0 -> x = 0]).
Proof.
case/run_binds=> a [b [s [EA EB ES EK]]].
exists a, b, s, (optimal_gain (eye F 3) b s); split=> // ric symS.
have symR : (eye F 3)^T = eye F 3 by rewrite /eye trmx1.
have unitR : eye F 3 \in unitmx by rewrite /eye unitmx1.
set k := optimal_gain _ _ _.
have rate x : value_rate a b s x (control_law k x)
              = - ((x^T *m 1%:M *m x) 0 0
                   + ((control_law k x)^T *m 1%:M *m control_law k x) 0 0).
  have [zero _] := control_law_optimal x 0 ric symS.
  move/eqP: zero; rewrite /bellman addrC addr_eq0 => /eqP ->.
  by rewrite /cost_rate /eye mxE.
split=> [|x|x].
- exact: closed_loop_lyapunov.
- by rewrite rate oppr_le0 addr_ge0 // square_ge0.
- rewrite rate => /eqP; rewrite oppr_eq0 paddr_eq0 ?square_ge0 //.
  by case/andP=> /eqP /square_eq0.
Qed.

End ClosedLoopOfTheRun.

(** ** The further properties on the small instance *)

Lemma demo_failing_run :
  run (demo_notebook Demo.failing_lib) Demo.globals0 Demo.world0 =
  (Demo.globals_at_linearizer, Demo.world_at_linearizer,
   Some (LibraryError "to_linearizer")).
Proof. by []. Qed.

Lemma equilibrium_dict_shape_witness :
  equilibrium rat Demo.coordinates Demo.speeds
  = [seq (k, 0) | k <- Demo.coordinates ++ Demo.speeds] /\
  size (equilibrium rat Demo.coordinates Demo.speeds) = 6%N.
Proof.
have [_ _ exact_shape] :=
  equilibrium_dict_shape rat Demo.coordinates Demo.speeds.
by have [-> _] := exact_shape isT.
Defined.

Lemma assign_r_and_compare_r_witness :
  let g := Globals.with_linearizer (Some Demo.linearizer0) Demo.globals0 in
  let g1 := Globals.with_linearizer (Some Demo.linearizer1) g in
  assign_r Demo.specified g Demo.world0 = inr (g1, Demo.world0) /\
  compare_r Demo.specified g1 Demo.world0
  = inr (g1, show (Out (VBool true)) Demo.world0).
Proof.
move=> g g1.
have [assigned compared _ _] :=
  @assign_r_and_compare_r rat string rat unit Demo.specified g Demo.world0
    Demo.linearizer0 (erefl _).
by split.
Defined.

Lemma run_completes_iff_witness :
  all (fun f => dict_get (files Demo.world0) f != None) solution_files /\
  completed Demo.lib Demo.coordinates Demo.speeds Demo.specified tt Demo.y
    Demo.globals0 Demo.world0
    (Demo.final_globals Demo.globals0,
     Demo.final_world Demo.globals0 Demo.world0).
Proof. exact: (proj1 (run_completes_iff _ _ _ _ _ _ _ _ _) demo_run). Defined.

Lemma run_raises_only_witness :
  notebook_error Demo.failing_lib Demo.coordinates Demo.speeds
    Demo.specified tt Demo.y Demo.globals0 Demo.world0
    (LibraryError "to_linearizer").
Proof.
apply/run_raises_only.
by exists Demo.globals_at_linearizer, Demo.world_at_linearizer;
   exact: demo_failing_run.
Defined.

Lemma shipped_run_stops_at_linearize_witness :
  (run (demo_notebook Demo.lib) shipped_globals Demo.world0).2
  = Some (NameError "parameter_dict").
Proof.
by rewrite (@shipped_run_stops_at_linearize _ _ _ _ _ Demo.lib
              Demo.coordinates Demo.speeds Demo.specified tt Demo.y
              shipped_globals Demo.world0 "# solution"%string
              Demo.linearizer0 (Symbols Demo.sorted_inputs)).
Defined.

Lemma lqr_law_is_the_unique_minimiser_witness :
  bellman (Demo.state_matrix Demo.specified)
    (Demo.input_matrix Demo.specified) (eye rat 6) (eye rat 3) 1%:M
    (const_mx 1) 0 = 0 <->
  0 = control_law Demo.gain (const_mx 1).
Proof.
have [a [b [s [k [[EA EB ES EK] unique]]]]] :=
  lqr_law_is_the_unique_minimiser demo_run.
move: EA EB ES EK unique => /= [<-] [<-] [<-] [<-] unique.
exact: unique demo_solves_riccati (trmx1 _ _) (const_mx 1) 0.
Defined.

Lemma closed_loop_decreases_value_witness :
  (Demo.state_matrix Demo.specified
   - Demo.input_matrix Demo.specified *m Demo.gain)^T *m 1%:M
  + 1%:M *m (Demo.state_matrix Demo.specified
             - Demo.input_matrix Demo.specified *m Demo.gain)
  = - (eye rat 6 + Demo.gain^T *m eye rat 3 *m Demo.gain).
Proof.
have [a [b [s [k [[EA EB ES EK] lyapunov]]]]] :=
  closed_loop_decreases_value demo_run.
move: EA EB ES EK lyapunov => /= [<-] [<-] [<-] [<-] lyapunov.
by have [] := lyapunov demo_solves_riccati (trmx1 _ _).
Defined.
